(** * Invitation/user reconciliation of the [fastly_user] resource

    A shallow embedding of [fastly/resource_fastly_user.go] and of the read
    functions of the two data sources next to it.  The handlers are written
    as programs over the calls they make to the Fastly client and to the
    HTTP client; a program is run against an arbitrary remote, which yields
    the handler's result, the remote's next state and the list of calls and
    log lines in the order they happened. *)

From stdpp Require Import base strings gmap list.
From Stdlib Require Import ZArith.

Local Open Scope Z_scope.
Local Open Scope string_scope.
Local Open Scope list_scope.

(** ** Errors and diagnostics *)

(** Go's [error] values as the handlers tell them apart: the client's
    [gofastly.HTTPError] (the only one on which [IsNotFound] is asked), an
    error made of a message ([fmt.Errorf] without [%w], transport errors),
    and [fmt.Errorf("...: %w", err)]. *)
Inductive error :=
| HTTPError (code : Z)
| Errorf (msg : string)
| Wrap (msg : string) (err : error).

(** [(T, error)] results. *)
Inductive result (A : Type) :=
| Ok (a : A)
| Err (e : error).
Arguments Ok {A} a.
Arguments Err {A} e.

(** The test made on an error before it is absorbed: the error itself is
    asserted to be the client's HTTP error (a wrapped one never passes) and
    its [IsNotFound] is asked, which holds for status 404. *)
Definition IsNotFound (err : error) : bool :=
  match err with
  | HTTPError code => (code =? 404)%Z
  | _ => false
  end.

(** [diag.Diagnostics]; [nil] is the empty list. *)
Definition Diagnostics := list error.

Definition diag_FromErr (err : error) : Diagnostics := [err].
Definition diag_Errorf (msg : string) : Diagnostics := [Errorf msg].

(** ** Records of the client library and of the invitation API *)

Definition Time := Z.

(** [gofastly.User]: every field is a pointer. *)
Record User := {
  UserID : option string;
  Login : option string;
  Name : option string;
  Role : option string;
  CustomerID : option string;
  Locked : option bool;
  TwoFactorAuthEnabled : option bool;
  LimitServices : option bool;
  CreatedAt : option Time;
  UpdatedAt : option Time
}.

(** [gofastly.ToValue]: the pointed value, or the zero value for [nil]. *)
Definition ToValue (p : option string) : string := default "" p.
Definition ToValue_bool (p : option bool) : bool := default false p.

Record customerData := { cd_ID : string; cd_Type : string }.
Record customerRelationship := { cr_Data : customerData }.
Record invitationRelationships := { Customer : customerRelationship }.
Record invitationAttributes := {
  ia_Email : string;
  ia_LimitServices : bool;
  ia_Role : string;
  ia_Roles : list string
}.
Record invitationData := {
  id_Type : string;
  id_Attributes : invitationAttributes;
  id_Relationships : invitationRelationships
}.
Record invitationRequest := { rq_Data : invitationData }.

Record responseAttributes := {
  at_Email : string;
  at_Role : string;
  at_StatusCode : Z
}.
Record invitationResponseData := {
  rd_ID : string;
  rd_Type : string;
  rd_Attributes : responseAttributes
}.
Record invitationResponse := { rs_Data : invitationResponseData }.
Record listInvitationsResponse := { ls_Data : list invitationResponseData }.

(** [Invitation] represents a pending invitation. *)
Record Invitation := {
  ID : string;
  Email : string;
  InvRole : string;
  StatusCode : Z
}.

(** The two fields of [APIClient] the handlers read: [client.conn.Address]
    and [client.apiKey]. *)
Record APIClient := { Address : string; apiKey : string }.

(** ** The host's property bag *)

(** [schema.ResourceData] for a schema whose attributes hold values of type
    [V]: the resource id, the attributes, and the keys whose planned value
    differs from the prior state (what [HasChanges] consults). *)
Record ResourceData (V : Type) := {
  Id : string;
  attrs : gmap string V;
  changed : list string
}.
Arguments Id {V} _.
Arguments attrs {V} _.
Arguments changed {V} _.

Definition SetId {V} (v : string) (d : ResourceData V) : ResourceData V :=
  {| Id := v; attrs := attrs d; changed := changed d |}.

Definition d_Set {V} (key : string) (v : V) (d : ResourceData V) : ResourceData V :=
  {| Id := Id d; attrs := <[key := v]> (attrs d); changed := changed d |}.

(** [d.Get(key).(string)]: an attribute never set reads as the empty
    string. *)
Definition d_Get (key : string) (d : ResourceData string) : string :=
  default "" (attrs d !! key).

Definition HasChanges {V} (keys : list string) (d : ResourceData V) : bool :=
  existsb (fun k => bool_decide (k ∈ changed d)) keys.

(** [if p != nil { d.Set(key, p) }] *)
Definition set_present (key : string) (p : option string)
    (d : ResourceData string) : ResourceData string :=
  match p with
  | Some v => d_Set key v d
  | None => d
  end.

(** ** Programs over the remote calls *)

Section Programs.

Context {Body : Type}.

Record Request := {
  Method : string;
  URL : string;
  ReqBody : option Body;
  Header : gmap string string
}.

Record Response := {
  HTTPStatusCode : Z;
  Status : string;
  RespBody : Body
}.

(** The calls that leave the process. *)
Inductive call :=
| conn_GetCurrentUser
| conn_ListCustomerUsers (customerID : string)
| conn_GetUser (userID : string)
| conn_UpdateUser (userID : string) (name role : option string)
| conn_DeleteUser (userID : string)
| HTTPClient_Do (req : Request).

Definition reply (c : call) : Type :=
  match c with
  | conn_GetCurrentUser => result User
  | conn_ListCustomerUsers _ => result (list User)
  | conn_GetUser _ => result User
  | conn_UpdateUser _ _ _ => result User
  | conn_DeleteUser _ => option error
  | HTTPClient_Do _ => result Response
  end.

(** An argument of [log.Printf]. *)
Inductive logarg :=
| LStr (s : string)
| LInt (z : Z)
| LErr (e : error).

Inductive prog (A : Type) :=
| Ret (a : A)
| Call (c : call) (k : reply c -> prog A)
| Printf (format : string) (args : list logarg) (k : prog A).
Arguments Ret {A} a.
Arguments Call {A} c k.
Arguments Printf {A} format args k.

Fixpoint bind {A B} (p : prog A) (f : A -> prog B) : prog B :=
  match p with
  | Ret a => f a
  | Call c k => Call c (fun x => bind (k x) f)
  | Printf format args k => Printf format args (bind k f)
  end.

(** What an observer of the process sees. *)
Inductive event :=
| Called (c : call)
| Logged (format : string) (args : list logarg).

(** A remote answers each call from its state and moves to a next state. *)
Definition remote (W : Type) := forall c : call, W -> reply c * W.

Fixpoint run {W A} (h : remote W) (p : prog A) (w : W) : A * W * list event :=
  match p with
  | Ret a => (a, w, [])
  | Call c k =>
      let '(x, w1) := h c w in
      let '(a, w2, t) := run h (k x) w1 in
      (a, w2, Called c :: t)
  | Printf format args k =>
      let '(a, w2, t) := run h k w in
      (a, w2, Logged format args :: t)
  end.

End Programs.

Arguments Request Body : clear implicits.
Arguments Response Body : clear implicits.
Arguments call Body : clear implicits.
Arguments prog Body A : clear implicits.
Arguments event Body : clear implicits.
Arguments remote Body W : clear implicits.
Arguments Ret {Body A} a.
Arguments Call {Body A} c k.
Arguments Printf {Body A} format args k.
Arguments Called {Body} c.
Arguments Logged {Body} format args.
Arguments reply {Body} c.
Arguments bind {Body A B} p f.
Arguments run {Body W A} h p w.

Notation "x <- p ;; k" := (bind p (fun x => k))
  (at level 100, p at next level, right associativity).

(** ** What the handlers take from Go's standard library

    The bytes of a request or response body are kept abstract; the
    standard library's functions over them are the fields of this class:
    [json.Marshal] of an invitation request, [json.NewDecoder(..).Decode]
    into the two response types, [io.ReadAll] followed by [string(..)],
    the error (if any) of [http.NewRequestWithContext] for a method and a
    URL, and [time.Time]'s [String]. *)
Class GoRuntime (Body : Type) := {
  json_Marshal : invitationRequest -> result Body;
  Decode_invitationResponse : Body -> result invitationResponse;
  Decode_listInvitationsResponse : Body -> result listInvitationsResponse;
  io_ReadAll : Body -> string;
  http_NewRequest : string -> string -> option error;
  time_String : Time -> string
}.

(** ** [resource_fastly_user.go] *)

Section Resource.

Context {Body : Type} {rt : GoRuntime Body}.

Local Abbreviation bag := (ResourceData string).

Definition doInvitationRequest (client : APIClient) (method path : string)
    (body : option Body) : prog Body (result (Response Body)) :=
  let url := Address client +:+ path in
  match http_NewRequest method url with
  | Some err => Ret (Err err)
  | None =>
      Call (HTTPClient_Do
              {| Method := method;
                 URL := url;
                 ReqBody := body;
                 Header :=
                   <["Fastly-Key" := apiKey client]>
                     (<["Accept" := "application/vnd.api+json"]>
                        (<["Content-Type" := "application/vnd.api+json"]> ∅)) |})
           Ret
  end.

Definition deleteInvitation (client : APIClient) (invitationID : string)
    : prog Body (option error) :=
  r <- doInvitationRequest client "DELETE" ("/invitations/" +:+ invitationID) None ;;
  match r with
  | Err err => Ret (Some err)
  | Ok resp =>
      if negb (HTTPStatusCode resp =? 200)%Z
         && negb (HTTPStatusCode resp =? 204)%Z
         && negb (HTTPStatusCode resp =? 404)%Z
      then Ret (Some (Errorf ("failed to delete invitation: " +:+ Status resp
                               +:+ " - " +:+ io_ReadAll (RespBody resp))))
      else Ret None
  end.

Definition listInvitations (client : APIClient)
    : prog Body (result listInvitationsResponse) :=
  r <- doInvitationRequest client "GET" "/invitations" None ;;
  match r with
  | Err err => Ret (Err err)
  | Ok resp =>
      if negb (HTTPStatusCode resp =? 200)%Z
      then Ret (Err (Errorf ("failed to list invitations: " +:+ Status resp
                              +:+ " - " +:+ io_ReadAll (RespBody resp))))
      else Ret (Decode_listInvitationsResponse (RespBody resp))
  end.

Definition toInvitation (inv : invitationResponseData) : Invitation :=
  {| ID := rd_ID inv;
     Email := at_Email (rd_Attributes inv);
     InvRole := at_Role (rd_Attributes inv);
     StatusCode := at_StatusCode (rd_Attributes inv) |}.

Definition getInvitation (client : APIClient) (invitationID : string)
    : prog Body (result Invitation) :=
  r <- listInvitations client ;;
  match r with
  | Err err => Ret (Err err)
  | Ok invitations =>
      match find (fun inv => bool_decide (rd_ID inv = invitationID))
                 (ls_Data invitations) with
      | Some inv => Ret (Ok (toInvitation inv))
      | None => Ret (Err (Errorf ("invitation not found: " +:+ invitationID)))
      end
  end.

Definition createInvitation (client : APIClient) (email role customerID : string)
    : prog Body (result invitationResponse) :=
  let reqBody :=
    {| rq_Data :=
         {| id_Type := "invitation";
            id_Attributes :=
              {| ia_Email := email;
                 ia_LimitServices := false;
                 ia_Role := role;
                 ia_Roles := [] |};
            id_Relationships :=
              {| Customer :=
                   {| cr_Data := {| cd_ID := customerID; cd_Type := "customer" |} |} |}
         |} |} in
  match json_Marshal reqBody with
  | Err err => Ret (Err err)
  | Ok body =>
      r <- doInvitationRequest client "POST" "/invitations" (Some body) ;;
      match r with
      | Err err => Ret (Err err)
      | Ok resp =>
          if negb (HTTPStatusCode resp =? 200)%Z
             && negb (HTTPStatusCode resp =? 201)%Z
          then Ret (Err (Errorf ("failed to create invitation: " +:+ Status resp
                                  +:+ " - " +:+ io_ReadAll (RespBody resp))))
          else Ret (Decode_invitationResponse (RespBody resp))
      end
  end.

(** The result is the first invitation of the list whose email is the one
    asked for, [Ok None] for Go's [nil, nil]. *)
Definition findInvitationByEmail (client : APIClient) (email : string)
    : prog Body (result (option Invitation)) :=
  r <- listInvitations client ;;
  match r with
  | Err err => Ret (Err err)
  | Ok invitations =>
      match find (fun inv => bool_decide (at_Email (rd_Attributes inv) = email))
                 (ls_Data invitations) with
      | Some inv => Ret (Ok (Some (toInvitation inv)))
      | None => Ret (Ok None)
      end
  end.

Definition findUserByLogin (login : string) : prog Body (result (option User)) :=
  Call conn_GetCurrentUser (fun r =>
  match r with
  | Err err => Ret (Err err)
  | Ok currentUser =>
      Call (conn_ListCustomerUsers (ToValue (CustomerID currentUser))) (fun r2 =>
      match r2 with
      | Err err => Ret (Err err)
      | Ok users =>
          Ret (Ok (find (fun u => bool_decide (ToValue (Login u) = login)) users))
      end)
  end).

(** The three guarded [d.Set] of login, name and role that follow every
    successful fetch of a user. *)
Definition set_user_attributes (u : User) (d : bag) : bag :=
  let d := set_present "login" (Login u) d in
  let d := set_present "name" (Name u) d in
  set_present "role" (Role u) d.

Definition resourceUserRead (client : APIClient) (d : bag)
    : prog Body (bag * Diagnostics) :=
  Printf "[DEBUG] Refreshing User Configuration for (%s)" [LStr (Id d)] (
  let userID := d_Get "user_id" d in
  let invitationID := d_Get "invitation_id" d in
  let login := d_Get "login" d in
  if bool_decide (userID <> "") then
    Call (conn_GetUser userID) (fun r =>
    match r with
    | Err err =>
        if IsNotFound err then Ret (SetId "" d, [])
        else Ret (d, diag_FromErr err)
    | Ok u => Ret (set_user_attributes u d, [])
    end)
  else if bool_decide (invitationID <> "") then
    r <- findUserByLogin login ;;
    match r with
    | Err err => Ret (d, diag_FromErr (Wrap "error checking for user: " err))
    | Ok (Some existingUser) =>
        let newUserID := ToValue (UserID existingUser) in
        let d := SetId newUserID d in
        let d := d_Set "user_id" newUserID d in
        let d := d_Set "invitation_id" "" d in
        let d := set_user_attributes existingUser d in
        Printf "[DEBUG] User %s accepted invitation, transitioning to user_id %s"
               [LStr login; LStr newUserID]
               (Ret (d, []))
    | Ok None =>
        r2 <- getInvitation client invitationID ;;
        match r2 with
        | Err _ =>
            Printf "[DEBUG] Invitation %s no longer exists, will recreate on next apply"
                   [LStr invitationID]
                   (Ret (SetId "" d, []))
        | Ok invitation =>
            Printf "[DEBUG] Invitation %s still pending for %s (status_code: %d)"
                   [LStr invitationID; LStr login; LInt (StatusCode invitation)]
                   (Ret (d, []))
        end
    end
  else
    Call (conn_GetUser (Id d)) (fun r =>
    match r with
    | Err err =>
        if IsNotFound err then Ret (SetId "" d, [])
        else Ret (d, diag_FromErr err)
    | Ok u =>
        let d := d_Set "user_id" (Id d) d in
        let d := d_Set "invitation_id" "" d in
        Ret (set_user_attributes u d, [])
    end)).

Definition resourceUserCreate (client : APIClient) (d : bag)
    : prog Body (bag * Diagnostics) :=
  let login := d_Get "login" d in
  let role := d_Get "role" d in
  r <- findUserByLogin login ;;
  match r with
  | Err err =>
      Ret (d, diag_FromErr (Wrap "error checking for existing user: " err))
  | Ok (Some existingUser) =>
      let d := SetId (ToValue (UserID existingUser)) d in
      let d := d_Set "user_id" (ToValue (UserID existingUser)) d in
      let d := d_Set "invitation_id" "" d in
      resourceUserRead client d
  | Ok None =>
      r2 <- findInvitationByEmail client login ;;
      match r2 with
      | Err err =>
          Ret (d, diag_FromErr (Wrap "error checking for existing invitation: " err))
      | Ok (Some existingInvitation) =>
          let d := SetId (ID existingInvitation) d in
          let d := d_Set "invitation_id" (ID existingInvitation) d in
          let d := d_Set "user_id" "" d in
          Printf "[DEBUG] Found existing invitation for %s: %s"
                 [LStr login; LStr (ID existingInvitation)]
                 (Ret (d, []))
      | Ok None =>
          Call conn_GetCurrentUser (fun r3 =>
          match r3 with
          | Err err =>
              Ret (d, diag_FromErr (Wrap "error getting current user: " err))
          | Ok currentUser =>
              let customerID := ToValue (CustomerID currentUser) in
              r4 <- createInvitation client login role customerID ;;
              match r4 with
              | Err err =>
                  Ret (d, diag_FromErr (Wrap "error creating invitation: " err))
              | Ok invitation =>
                  let d := SetId (rd_ID (rs_Data invitation)) d in
                  let d := d_Set "invitation_id" (rd_ID (rs_Data invitation)) d in
                  let d := d_Set "user_id" "" d in
                  Printf "[DEBUG] Created invitation for %s: %s"
                         [LStr login; LStr (rd_ID (rs_Data invitation))]
                         (Ret (d, []))
              end
          end)
      end
  end.

Definition resourceUserUpdate (client : APIClient) (d : bag)
    : prog Body (bag * Diagnostics) :=
  let userID := d_Get "user_id" d in
  if bool_decide (userID = "") then
    if HasChanges ["name"; "role"] d
    then Ret (d, diag_Errorf "cannot update user while invitation is still pending; please wait for the user to accept the invitation")
    else Ret (d, [])
  else if HasChanges ["name"; "role"] d then
    Call (conn_UpdateUser userID (Some (d_Get "name" d)) (Some (d_Get "role" d)))
         (fun r =>
          match r with
          | Err err => Ret (d, diag_FromErr err)
          | Ok _ => resourceUserRead client d
          end)
  else resourceUserRead client d.

Definition resourceUserDelete (client : APIClient) (d : bag)
    : prog Body (bag * Diagnostics) :=
  let userID := d_Get "user_id" d in
  let invitationID := d_Get "invitation_id" d in
  if bool_decide (userID <> "") then
    Call (conn_DeleteUser userID) (fun r =>
    match r with
    | Some err =>
        if IsNotFound err then Ret (d, [])
        else Ret (d, diag_FromErr err)
    | None => Ret (d, [])
    end)
  else if bool_decide (invitationID <> "") then
    r <- deleteInvitation client invitationID ;;
    match r with
    | Some err =>
        Printf "[DEBUG] Error deleting invitation %s (may have already expired): %v"
               [LStr invitationID; LErr err]
               (Ret (d, []))
    | None => Ret (d, [])
    end
  else Ret (d, []).

(** [resourceUser]: the four handlers the resource registers with the
    host (create, read, update and delete contexts). *)
Inductive operation := Create | Read | Update | Delete.

Definition resourceUser (op : operation)
    : APIClient -> bag -> prog Body (bag * Diagnostics) :=
  match op with
  | Create => resourceUserCreate
  | Read => resourceUserRead
  | Update => resourceUserUpdate
  | Delete => resourceUserDelete
  end.

End Resource.

(** ** The two data sources: users and [data_source_invitations.go] *)

(** A value of a row of a computed list attribute. *)
Inductive scalar :=
| SString (s : string)
| SBool (b : bool)
| SInt (z : Z).

(** The types of the attributes of a row. *)
Inductive ValueType := TypeString | TypeBool | TypeInt.

Definition zero (t : ValueType) : scalar :=
  match t with
  | TypeString => SString ""
  | TypeBool => SBool false
  | TypeInt => SInt 0
  end.

(** [dataSourceFastlyUsers]: the schema of an element of [users]. *)
Definition users_elem : list (string * ValueType) :=
  [("id", TypeString); ("login", TypeString); ("name", TypeString);
   ("role", TypeString); ("customer_id", TypeString); ("locked", TypeBool);
   ("two_factor_auth_enabled", TypeBool); ("limit_services", TypeBool);
   ("created_at", TypeString); ("updated_at", TypeString)].

(** A row as the host holds it once it was set: read back against the
    schema of the element, it has every key of the schema, with the zero
    value of the key's type where the map that was set has none. *)
Definition read_back (elem : list (string * ValueType))
    (row : gmap string scalar) : gmap string scalar :=
  foldr (fun kt m => <[kt.1 := default (zero kt.2) (row !! kt.1)]> m) ∅ elem.

(** [d.Set] of a list of rows under a schema of the element. *)
Definition d_Set_rows (elem : list (string * ValueType)) (key : string)
    (v : list (gmap string scalar))
    (d : ResourceData (list (gmap string scalar)))
    : ResourceData (list (gmap string scalar)) :=
  d_Set key (map (read_back elem) v) d.

Section DataSources.

Context {Body : Type} {rt : GoRuntime Body}.

Local Abbreviation rows := (list (gmap string scalar)).

(** The map built for one user: eight keys always, [created_at] and
    [updated_at] only for a time that is there. *)
Definition user_row (u : User) : gmap string scalar :=
  let m : gmap string scalar :=
    <["limit_services" := SBool (ToValue_bool (LimitServices u))]>
    (<["two_factor_auth_enabled" := SBool (ToValue_bool (TwoFactorAuthEnabled u))]>
    (<["locked" := SBool (ToValue_bool (Locked u))]>
    (<["customer_id" := SString (ToValue (CustomerID u))]>
    (<["role" := SString (ToValue (Role u))]>
    (<["name" := SString (ToValue (Name u))]>
    (<["login" := SString (ToValue (Login u))]>
    (<["id" := SString (ToValue (UserID u))]> ∅))))))) in
  let m :=
    match CreatedAt u with
    | Some t => <["created_at" := SString (time_String t)]> m
    | None => m
    end in
  match UpdatedAt u with
  | Some t => <["updated_at" := SString (time_String t)]> m
  | None => m
  end.

Definition dataSourceFastlyUsersRead (d : ResourceData rows)
    : prog Body (ResourceData rows * Diagnostics) :=
  Call conn_GetCurrentUser (fun r =>
  match r with
  | Err err => Ret (d, diag_FromErr err)
  | Ok currentUser =>
      let customerID := ToValue (CustomerID currentUser) in
      Call (conn_ListCustomerUsers customerID) (fun r2 =>
      match r2 with
      | Err err => Ret (d, diag_FromErr err)
      | Ok users =>
          let result := map user_row users in
          let d := d_Set_rows users_elem "users" result d in
          Ret (SetId customerID d, [])
      end)
  end).

Definition invitation_row (inv : invitationResponseData) : gmap string scalar :=
  <["status_code" := SInt (at_StatusCode (rd_Attributes inv))]>
  (<["role" := SString (at_Role (rd_Attributes inv))]>
  (<["email" := SString (at_Email (rd_Attributes inv))]>
  (<["id" := SString (rd_ID inv)]> ∅))).

Definition dataSourceFastlyInvitationsRead (client : APIClient) (d : ResourceData rows)
    : prog Body (ResourceData rows * Diagnostics) :=
  Call conn_GetCurrentUser (fun r =>
  match r with
  | Err err => Ret (d, diag_FromErr err)
  | Ok currentUser =>
      let customerID := ToValue (CustomerID currentUser) in
      r2 <- listInvitations client ;;
      match r2 with
      | Err err => Ret (d, diag_FromErr err)
      | Ok invitations =>
          let result := map invitation_row (ls_Data invitations) in
          let d := d_Set "invitations" result d in
          Ret (SetId customerID d, [])
      end
  end).

End DataSources.

(** ** Vocabulary of the statements *)

Section Vocabulary.

Context {Body : Type} {rt : GoRuntime Body}.

Implicit Types (d : ResourceData string) (client : APIClient).

(** Kinds of events. *)
Definition is_remote (e : event Body) : bool :=
  match e with
  | Called _ => true
  | Logged _ _ => false
  end.

Definition is_http (e : event Body) : bool :=
  match e with
  | Called (HTTPClient_Do _) => true
  | _ => false
  end.

(** The only request that creates an invitation is the POST of
    [createInvitation]. *)
Definition is_post (e : event Body) : bool :=
  match e with
  | Called (HTTPClient_Do req) => bool_decide (Method req = "POST")
  | _ => false
  end.

(** The first thing [resourceUserRead] does. *)
Definition refreshing d : event Body :=
  Logged "[DEBUG] Refreshing User Configuration for (%s)" [LStr (Id d)].

(** The bag after the three statements that record a user, and after the
    three that record an invitation. *)
Definition as_user (userID : string) d :=
  d_Set "invitation_id" "" (d_Set "user_id" userID (SetId userID d)).

Definition as_invitation (invitationID : string) d :=
  d_Set "user_id" "" (d_Set "invitation_id" invitationID (SetId invitationID d)).

(** At most one of the two identity fields is set. *)
Definition exclusive d : Prop :=
  d_Get "invitation_id" d = "" \/ d_Get "user_id" d = "".

(** Calls that only ask: the three getters of the client and a GET. *)
Definition is_read (c : call Body) : bool :=
  match c with
  | conn_GetCurrentUser | conn_ListCustomerUsers _ | conn_GetUser _ => true
  | HTTPClient_Do req => bool_decide (Method req = "GET")
  | conn_UpdateUser _ _ _ | conn_DeleteUser _ => false
  end.

Definition observes (e : event Body) : bool :=
  match e with
  | Called c => is_read c
  | Logged _ _ => true
  end.

(** The remote's state is fixed as long as it is only asked. *)
Definition read_only {W} (h : remote Body W) : Prop :=
  forall c w, is_read c = true -> (h c w).2 = w.

(** The remote lists what it creates: after [createInvitation] succeeded
    for an email, the current user and the user lists are answered as
    before, and, if the listing before showed no invitation for that
    email, the listing after shows one whose id is the created one's and
    which is the first for that email. *)
Definition lists_created {W} (h : remote Body W) client : Prop :=
  forall email role customerID w invitation w1 t,
    run h (createInvitation client email role customerID) w = (Ok invitation, w1, t) ->
    (h conn_GetCurrentUser w1).1 = (h conn_GetCurrentUser w).1
    /\ (forall cid,
          (h (conn_ListCustomerUsers cid) w1).1 = (h (conn_ListCustomerUsers cid) w).1)
    /\ forall listed,
         (run h (listInvitations client) w).1.1 = Ok listed ->
         Forall (fun e => at_Email (rd_Attributes e) <> email) (ls_Data listed) ->
         exists listed1 before entry after,
           (run h (listInvitations client) w1).1.1 = Ok listed1
           /\ ls_Data listed1 = before ++ entry :: after
           /\ Forall (fun e => at_Email (rd_Attributes e) <> email) before
           /\ at_Email (rd_Attributes entry) = email
           /\ rd_ID entry = rd_ID (rs_Data invitation).

(** *** Footprints *)

(** Every call a program can make, whatever is answered, satisfies [P]. *)
Fixpoint calls_only {A} (P : call Body -> Prop) (p : prog Body A) : Prop :=
  match p with
  | Ret _ => True
  | Call c k => P c /\ forall x, calls_only P (k x)
  | Printf _ _ k => calls_only P k
  end.

Definition called_only (P : call Body -> Prop) (e : event Body) : Prop :=
  match e with
  | Called c => P c
  | Logged _ _ => True
  end.

(** The calls each handler is seen to make: asking ones, and besides them
    the POST for a create, [UpdateUser] for an update; for a delete only
    [DeleteUser] and the DELETE. *)
Definition may_call (op : operation) (c : call Body) : Prop :=
  match op with
  | Create =>
      is_read c = true
      \/ exists req, c = HTTPClient_Do req /\ Method req = "POST"
  | Read => is_read c = true
  | Update => is_read c = true \/ exists userID name role, c = conn_UpdateUser userID name role
  | Delete =>
      (exists userID, c = conn_DeleteUser userID)
      \/ exists req, c = HTTPClient_Do req /\ Method req = "DELETE"
  end.

(** A request as [doInvitationRequest] builds it for a client. *)
Definition well_formed client (c : call Body) : Prop :=
  match c with
  | HTTPClient_Do req =>
      Header req !! "Fastly-Key" = Some (apiKey client)
      /\ Header req !! "Accept" = Some "application/vnd.api+json"
      /\ Header req !! "Content-Type" = Some "application/vnd.api+json"
      /\ exists path, URL req = Address client +:+ path
  | _ => True
  end.

(** The resource id is empty, or it is the user id, or there is no user id
    and it is the invitation id. *)
Definition tracks d : Prop :=
  Id d = ""
  \/ d_Get "user_id" d = Id d
  \/ (d_Get "user_id" d = "" /\ d_Get "invitation_id" d = Id d).

End Vocabulary.

(** ** An in-memory account

    A remote small enough to compute with: the users and the invitations of
    one account, the ids the next invitations will get, and a switch that
    makes the invitation endpoint answer 500.  It serves the scenarios on
    which the theorems below are instantiated. *)

Module Account.

Inductive body :=
| BRequest (r : invitationRequest)
| BInvitation (r : invitationResponse)
| BList (l : listInvitationsResponse)
| BText (s : string).

#[export] Instance runtime : GoRuntime body := {|
  json_Marshal r := Ok (BRequest r);
  Decode_invitationResponse b :=
    match b with
    | BInvitation r => Ok r
    | _ => Err (Errorf "json: cannot unmarshal")
    end;
  Decode_listInvitationsResponse b :=
    match b with
    | BList l => Ok l
    | _ => Err (Errorf "json: cannot unmarshal")
    end;
  io_ReadAll b := match b with BText s => s | _ => "" end;
  http_NewRequest _ _ := None;
  time_String t := if (t =? 0)%Z then "0001-01-01 00:00:00 +0000 UTC" else "later"
|}.

Record account := {
  current : result User;
  users : list User;
  invitations : list invitationResponseData;
  fresh : list string;
  outage : bool
}.

Definition base : string := "https://api.fastly.com".

Definition client : APIClient := {| Address := base; apiKey := "key" |}.

Definition has_id (id : string) (u : User) : bool :=
  bool_decide (UserID u = Some id).

Definition rename (name role : option string) (u : User) : User :=
  {| UserID := UserID u; Login := Login u;
     Name := from_option Some (Name u) name;
     Role := from_option Some (Role u) role;
     CustomerID := CustomerID u; Locked := Locked u;
     TwoFactorAuthEnabled := TwoFactorAuthEnabled u;
     LimitServices := LimitServices u;
     CreatedAt := CreatedAt u; UpdatedAt := UpdatedAt u |}.

Definition answer (code : Z) (status : string) (b : body) : result (Response body) :=
  Ok {| HTTPStatusCode := code; Status := status; RespBody := b |}.

Definition is_delete_of (url : string) (inv : invitationResponseData) : bool :=
  bool_decide (url = base +:+ "/invitations/" +:+ rd_ID inv).

Definition http (req : Request body) (w : account) : result (Response body) * account :=
  if outage w then (answer 500 "500 Internal Server Error" (BText "unavailable"), w)
  else if bool_decide (Method req = "GET") then
    (answer 200 "200 OK" (BList {| ls_Data := invitations w |}), w)
  else if bool_decide (Method req = "POST") then
    match ReqBody req, fresh w with
    | Some (BRequest r), id :: ids =>
        let inv :=
          {| rd_ID := id; rd_Type := "invitation";
             rd_Attributes :=
               {| at_Email := ia_Email (id_Attributes (rq_Data r));
                  at_Role := ia_Role (id_Attributes (rq_Data r));
                  at_StatusCode := 1 |} |} in
        (answer 201 "201 Created" (BInvitation {| rs_Data := inv |}),
         {| current := current w; users := users w;
            invitations := invitations w ++ [inv];
            fresh := ids; outage := outage w |})
    | _, _ => (answer 400 "400 Bad Request" (BText "bad request"), w)
    end
  else if bool_decide (Method req = "DELETE") then
    if existsb (is_delete_of (URL req)) (invitations w) then
      (answer 204 "204 No Content" (BText ""),
       {| current := current w; users := users w;
          invitations := filter (fun inv => negb (is_delete_of (URL req) inv)) (invitations w);
          fresh := fresh w; outage := outage w |})
    else (answer 404 "404 Not Found" (BText "not found"), w)
  else (answer 405 "405 Method Not Allowed" (BText ""), w).

Definition serve : remote body account :=
  fun c =>
    match c as c0 return account -> reply c0 * account with
    | conn_GetCurrentUser => fun w => (current w, w)
    | conn_ListCustomerUsers _ => fun w => (Ok (users w), w)
    | conn_GetUser id => fun w =>
        (match find (has_id id) (users w) with
         | Some u => Ok u
         | None => Err (HTTPError 404)
         end, w)
    | conn_UpdateUser id name role => fun w =>
        match find (has_id id) (users w) with
        | Some u =>
            (Ok (rename name role u),
             {| current := current w;
                users := map (fun v => if has_id id v then rename name role v else v) (users w);
                invitations := invitations w; fresh := fresh w; outage := outage w |})
        | None => (Err (HTTPError 404), w)
        end
    | conn_DeleteUser id => fun w =>
        if existsb (has_id id) (users w) then
          (None,
           {| current := current w;
              users := filter (fun v => negb (has_id id v)) (users w);
              invitations := invitations w; fresh := fresh w; outage := outage w |})
        else (Some (HTTPError 404), w)
    | HTTPClient_Do req => http req
    end.

Definition user (id login name role : string) : User :=
  {| UserID := Some id; Login := Some login; Name := Some name; Role := Some role;
     CustomerID := Some "cust-1"; Locked := Some false;
     TwoFactorAuthEnabled := Some false; LimitServices := Some false;
     CreatedAt := None; UpdatedAt := None |}.

Definition admin : User := user "u-0" "admin@x.com" "Admin" "superuser".

Definition invitation (id email role : string) : invitationResponseData :=
  {| rd_ID := id; rd_Type := "invitation";
     rd_Attributes := {| at_Email := email; at_Role := role; at_StatusCode := 1 |} |}.

(** The bag of a resource as the host hands it to a handler. *)
Definition resource (id login name role invitation_id user_id : string)
    (changed : list string) : ResourceData string :=
  {| Id := id;
     attrs := <["login" := login]> (<["name" := name]> (<["role" := role]>
              (<["invitation_id" := invitation_id]> (<["user_id" := user_id]> ∅))));
     changed := changed |}.

(** Accounts and bags of the scenarios. *)
Definition alice : User := user "u-1" "a@x.com" "Alice" "engineer".

Definition account_of (us : list User) (invs : list invitationResponseData)
    (down : bool) : account :=
  {| current := Ok admin; users := admin :: us; invitations := invs;
     fresh := ["inv-1"; "inv-2"]; outage := down |}.

Definition nobody : account := account_of [] [] false.
Definition accepted : account := account_of [alice] [] false.
Definition invited : account :=
  account_of [] [invitation "inv-7" "a@x.com" "engineer"] false.
Definition accepted_stale : account :=
  account_of [alice] [invitation "inv-7" "a@x.com" "engineer"] false.
Definition invited_down : account :=
  account_of [] [invitation "inv-7" "a@x.com" "engineer"] true.

Definition planned : ResourceData string :=
  resource "" "a@x.com" "Alice" "engineer" "" "" [].
Definition pending : ResourceData string :=
  resource "inv-7" "a@x.com" "Alice" "engineer" "inv-7" "" [].
Definition pending_renamed : ResourceData string :=
  resource "inv-7" "a@x.com" "Alicia" "engineer" "inv-7" "" ["name"].
Definition active : ResourceData string :=
  resource "u-1" "a@x.com" "Al" "user" "" "u-1" [].
Definition imported : ResourceData string :=
  {| Id := "u-1"; attrs := ∅; changed := [] |}.
Definition both_set : ResourceData string :=
  resource "u-1" "a@x.com" "Alice" "engineer" "inv-7" "u-1" [].
Definition active_renamed : ResourceData string :=
  resource "u-1" "a@x.com" "Alicia" "engineer" "" "u-1" ["name"].

Definition signed_out : account :=
  {| current := Err (HTTPError 401); users := []; invitations := [];
     fresh := []; outage := false |}.

Definition invited_among : account :=
  account_of [user "u-2" "b@x.com" "Bob" "user"]
    [invitation "inv-5" "b@x.com" "user"; invitation "inv-7" "a@x.com" "engineer"]
    false.

Definition shouting : ResourceData string :=
  resource "" "A@x.com" "Alice" "engineer" "" "" [].

(** The account seen through a remote on which a listed user is gone by
    the time it is fetched. *)
Definition vanished : remote body account :=
  fun c =>
    match c as c0 return account -> reply c0 * account with
    | conn_GetUser _ => fun w => (Err (HTTPError 404), w)
    | c0 => serve c0
    end.

Definition lower (c : Ascii.ascii) : Ascii.ascii :=
  let n := Ascii.nat_of_ascii c in
  if (65 <=? n)%nat && (n <=? 90)%nat then Ascii.ascii_of_nat (n + 32) else c.

Fixpoint lower_string (s : string) : string :=
  match s with
  | EmptyString => EmptyString
  | String c s => String (lower c) (lower_string s)
  end.

Definition fold_request (req : Request body) : Request body :=
  match ReqBody req with
  | Some (BRequest r) =>
      let a := id_Attributes (rq_Data r) in
      {| Method := Method req; URL := URL req;
         ReqBody :=
           Some (BRequest
             {| rq_Data :=
                  {| id_Type := id_Type (rq_Data r);
                     id_Attributes :=
                       {| ia_Email := lower_string (ia_Email a);
                          ia_LimitServices := ia_LimitServices a;
                          ia_Role := ia_Role a; ia_Roles := ia_Roles a |};
                     id_Relationships := id_Relationships (rq_Data r) |} |});
         Header := Header req |}
  | _ => req
  end.

(** The account seen through a remote that keeps addresses in lower
    case. *)
Definition folding : remote body account :=
  fun c =>
    match c as c0 return account -> reply c0 * account with
    | HTTPClient_Do req => http (fold_request req)
    | c0 => serve c0
    end.

(** The bag of a data source before its read. *)
Definition listing : ResourceData (list (gmap string scalar)) :=
  {| Id := ""; attrs := ∅; changed := [] |}.

(** The requests [doInvitationRequest] builds for [client]. *)
Definition request (method path : string) (b : option body) : Request body :=
  {| Method := method; URL := base +:+ path; ReqBody := b;
     Header :=
       <["Fastly-Key" := "key"]>
         (<["Accept" := "application/vnd.api+json"]>
            (<["Content-Type" := "application/vnd.api+json"]> ∅)) |}.

End Account.

(** ** Lists *)

(** The first match of a list that has none in its front part is the first
    match of the rest. *)
Lemma find_app_None {A} (p : A -> bool) (l l' : list A) :
  find p l = None -> find p (l ++ l') = find p l'.
Proof.
  induction l as [| x l IH]; [done |]. cbn. by destruct (p x).
Qed.

(** Where [find] stops. *)
Lemma find_first {A} (p : A -> bool) (l : list A) (x : A) :
  find p l = Some x ->
  exists l1 l2, l = l1 ++ x :: l2 /\ p x = true /\ Forall (fun y => p y = false) l1.
Proof.
  induction l as [| y l IH]; [done |]. cbn.
  destruct (p y) eqn:Hy.
  - intros [= ->]. exists [], l. by repeat split.
  - intros (l1 & l2 & -> & Hx & Hl1)%IH.
    exists (y :: l1), l2. repeat split; [done |]. by constructor.
Qed.

Lemma find_first_intro {A} (p : A -> bool) (before : list A) (x : A) (after : list A) :
  Forall (fun y => p y = false) before -> p x = true ->
  find p (before ++ x :: after) = Some x.
Proof.
  intros Hb Hx. induction Hb as [| y l Hy Hl IH]; cbn.
  - by rewrite Hx.
  - by rewrite Hy.
Qed.

Lemma find_None_Forall {A} (p : A -> bool) (l : list A) :
  find p l = None <-> Forall (fun y => p y = false) l.
Proof.
  induction l as [| x l IH]; cbn.
  - split; [by constructor | done].
  - destruct (p x) eqn:Hx.
    + split; [done |]. intros H. inversion H; congruence.
    + rewrite IH. split; [by constructor |]. intros H. by inversion H.
Qed.

(** ** Running programs *)

Section Running.

Context {Body : Type} {W : Type} (h : remote Body W).

Lemma run_bind {A B} (p : prog Body A) (f : A -> prog Body B) (w : W) :
  run h (bind p f) w =
  let '(a, w1, t1) := run h p w in
  let '(b, w2, t2) := run h (f a) w1 in
  (b, w2, t1 ++ t2).
Proof.
  revert w. induction p as [a | c k IH | format args k IH]; intros w; simpl.
  - destruct (run h (f a) w) as [[b w2] t2]. reflexivity.
  - destruct (h c w) as [x w1]. rewrite IH.
    destruct (run h (k x) w1) as [[a w2] t].
    destruct (run h (f a) w2) as [[b w3] t2]. reflexivity.
  - rewrite IH. destruct (run h k w) as [[a w2] t].
    destruct (run h (f a) w2) as [[b w3] t2]. reflexivity.
Qed.

Lemma run_bind_eq {A B} (p : prog Body A) (f : A -> prog Body B) w a w1 t1 :
  run h p w = (a, w1, t1) ->
  run h (bind p f) w =
  let '(b, w2, t2) := run h (f a) w1 in (b, w2, t1 ++ t2).
Proof. intros E. rewrite run_bind, E. reflexivity. Qed.

End Running.

(** ** The property bag *)

Section Bag.

Implicit Types d : ResourceData string.

Lemma d_Get_Set_eq key v d : d_Get key (d_Set key v d) = v.
Proof. unfold d_Get, d_Set; simpl. by rewrite lookup_insert_eq. Qed.

Lemma d_Get_Set_ne key key' v d :
  key <> key' -> d_Get key' (d_Set key v d) = d_Get key' d.
Proof. intros Hne. unfold d_Get, d_Set; simpl. by rewrite lookup_insert_ne. Qed.

Lemma d_Get_SetId key v d : d_Get key (SetId v d) = d_Get key d.
Proof. reflexivity. Qed.

Lemma Id_d_Set key (v : string) d : Id (d_Set key v d) = Id d.
Proof. reflexivity. Qed.

Lemma Id_set_present key p d : Id (set_present key p d) = Id d.
Proof. by destruct p. Qed.

Lemma d_Get_set_present_eq key p d :
  d_Get key (set_present key p d) = default (d_Get key d) p.
Proof. destruct p; simpl; [apply d_Get_Set_eq | done]. Qed.

Lemma d_Get_set_present_ne key key' p d :
  key <> key' -> d_Get key' (set_present key p d) = d_Get key' d.
Proof. intros Hne. destruct p; simpl; [by apply d_Get_Set_ne | done]. Qed.

Lemma Id_set_user_attributes u d : Id (set_user_attributes u d) = Id d.
Proof. unfold set_user_attributes; cbv zeta. by rewrite !Id_set_present. Qed.

(** The attributes written after a fetch: each of login, name and role
    takes the fetched value when the record carries one. *)
Lemma d_Get_set_user_attributes u d :
  d_Get "login" (set_user_attributes u d) = default (d_Get "login" d) (Login u)
  /\ d_Get "name" (set_user_attributes u d) = default (d_Get "name" d) (Name u)
  /\ d_Get "role" (set_user_attributes u d) = default (d_Get "role" d) (Role u).
Proof.
  unfold set_user_attributes; cbv zeta. repeat split.
  - rewrite !d_Get_set_present_ne by done. apply d_Get_set_present_eq.
  - rewrite d_Get_set_present_ne by done.
    rewrite d_Get_set_present_eq. by rewrite d_Get_set_present_ne.
  - rewrite d_Get_set_present_eq. by rewrite !d_Get_set_present_ne.
Qed.

Lemma d_Get_set_user_attributes_other key u d :
  key <> "login" -> key <> "name" -> key <> "role" ->
  d_Get key (set_user_attributes u d) = d_Get key d.
Proof.
  intros H1 H2 H3. unfold set_user_attributes; cbv zeta.
  by rewrite !d_Get_set_present_ne.
Qed.

End Bag.

(** ** The lookups *)

Section Lookups.

Context {Body : Type} {rt : GoRuntime Body} {W : Type} (h : remote Body W).

(** [findUserByLogin] asks for the current user, then for the users of its
    customer, and makes no other call. *)
Lemma run_findUserByLogin login w :
  run h (findUserByLogin login) w =
  match h conn_GetCurrentUser w with
  | (Err err, w1) => (Err err, w1, [Called conn_GetCurrentUser])
  | (Ok currentUser, w1) =>
      let cid := ToValue (CustomerID currentUser) in
      match h (conn_ListCustomerUsers cid) w1 with
      | (Err err, w2) =>
          (Err err, w2,
           [Called conn_GetCurrentUser; Called (conn_ListCustomerUsers cid)])
      | (Ok users, w2) =>
          (Ok (find (fun u => bool_decide (ToValue (Login u) = login)) users), w2,
           [Called conn_GetCurrentUser; Called (conn_ListCustomerUsers cid)])
      end
  end.
Proof.
  unfold findUserByLogin; cbn [run].
  destruct (h conn_GetCurrentUser w) as [[cu | err] w1]; cbn [run]; [| done].
  cbv zeta.
  destruct (h (conn_ListCustomerUsers _) w1) as [[users | err] w2]; done.
Qed.

Lemma findUserByLogin_no_http login w r w1 t :
  run h (findUserByLogin login) w = (r, w1, t) -> existsb is_http t = false.
Proof.
  rewrite run_findUserByLogin.
  destruct (h conn_GetCurrentUser w) as [[cu | err] w']; [| by intros [= <- <- <-]].
  cbv zeta.
  destruct (h (conn_ListCustomerUsers _) w') as [[users | err] w2];
    by intros [= <- <- <-].
Qed.

Lemma existsb_is_post_le (t : list (event Body)) :
  existsb is_http t = false -> existsb is_post t = false.
Proof.
  induction t as [| e t IH]; [done |]. cbn [existsb].
  intros [He Ht]%orb_false_elim. rewrite IH by done.
  destruct e as [[] |]; try done.
Qed.

(** [doInvitationRequest] sends at most one request, with the method and
    the path it was given. *)
Lemma run_doInvitationRequest client method path body w r w1 t :
  run h (doInvitationRequest client method path body) w = (r, w1, t) ->
  (t = [] /\ w1 = w /\ exists err, r = Err err
     /\ http_NewRequest method (Address client +:+ path) = Some err)
  \/ (exists req, t = [Called (HTTPClient_Do req)]
        /\ Method req = method /\ URL req = Address client +:+ path
        /\ ReqBody req = body
        /\ http_NewRequest method (Address client +:+ path) = None
        /\ h (HTTPClient_Do req) w = (r, w1)).
Proof.
  unfold doInvitationRequest; cbv zeta.
  destruct (http_NewRequest method _) as [err |] eqn:E; cbn [run].
  - intros [= <- <- <-]. left. eauto.
  - destruct (h (HTTPClient_Do _) w) as [r' w'] eqn:Eh.
    intros [= <- <- <-]. right. eexists. repeat split; done.
Qed.

Lemma doInvitationRequest_not_post client method path body w r w1 t :
  method <> "POST" ->
  run h (doInvitationRequest client method path body) w = (r, w1, t) ->
  existsb is_post t = false.
Proof.
  intros Hm [(-> & _) | (req & -> & Hreq & _)]%run_doInvitationRequest; [done |].
  cbn. rewrite Hreq. rewrite bool_decide_eq_false_2; done.
Qed.

(** The trace of a program that only post-processes the answer of
    another one is that one's trace. *)
Lemma run_bind_pure {A B} (p : prog Body A) (g : A -> B) (f : A -> prog Body B) w :
  (forall a, f a = Ret (g a)) ->
  run h (bind p f) w = let '(a, w1, t) := run h p w in (g a, w1, t).
Proof.
  intros Hf. rewrite run_bind.
  destruct (run h p w) as [[a w1] t]. rewrite Hf; cbn [run].
  by rewrite app_nil_r.
Qed.

Lemma run_listInvitations client w :
  run h (listInvitations client) w =
  let '(r, w1, t) := run h (doInvitationRequest client "GET" "/invitations" None) w in
  (match r with
   | Err err => Err err
   | Ok resp =>
       if negb (HTTPStatusCode resp =? 200)%Z
       then Err (Errorf ("failed to list invitations: " +:+ Status resp
                          +:+ " - " +:+ io_ReadAll (RespBody resp)))
       else Decode_listInvitationsResponse (RespBody resp)
   end, w1, t).
Proof.
  unfold listInvitations. apply run_bind_pure.
  intros [resp | err]; [| done]. by destruct (negb _).
Qed.

Lemma listInvitations_no_post client w r w1 t :
  run h (listInvitations client) w = (r, w1, t) -> existsb is_post t = false.
Proof.
  rewrite run_listInvitations.
  destruct (run h (doInvitationRequest _ _ _ _) w) as [[r' w'] t'] eqn:E.
  intros [= _ _ <-]. by eapply doInvitationRequest_not_post, E.
Qed.

Lemma run_findInvitationByEmail client email w :
  run h (findInvitationByEmail client email) w =
  let '(r, w1, t) := run h (listInvitations client) w in
  (match r with
   | Err err => Err err
   | Ok invitations =>
       Ok (toInvitation <$>
             find (fun inv => bool_decide (at_Email (rd_Attributes inv) = email))
                  (ls_Data invitations))
   end, w1, t).
Proof.
  unfold findInvitationByEmail. apply run_bind_pure.
  intros [l | err]; [| done]. by destruct (find _ _).
Qed.

Lemma run_getInvitation client invitationID w :
  run h (getInvitation client invitationID) w =
  let '(r, w1, t) := run h (listInvitations client) w in
  (match r with
   | Err err => Err err
   | Ok invitations =>
       match find (fun inv => bool_decide (rd_ID inv = invitationID))
                  (ls_Data invitations) with
       | Some inv => Ok (toInvitation inv)
       | None => Err (Errorf ("invitation not found: " +:+ invitationID))
       end
   end, w1, t).
Proof.
  unfold getInvitation. apply run_bind_pure.
  intros [l | err]; [| done]. by destruct (find _ _).
Qed.

Lemma findInvitationByEmail_no_post client email w r w1 t :
  run h (findInvitationByEmail client email) w = (r, w1, t) ->
  existsb is_post t = false.
Proof.
  rewrite run_findInvitationByEmail.
  destruct (run h (listInvitations client) w) as [[r' w'] t'] eqn:E.
  intros [= _ _ <-]. by eapply listInvitations_no_post, E.
Qed.

Lemma getInvitation_no_post client invitationID w r w1 t :
  run h (getInvitation client invitationID) w = (r, w1, t) ->
  existsb is_post t = false.
Proof.
  rewrite run_getInvitation.
  destruct (run h (listInvitations client) w) as [[r' w'] t'] eqn:E.
  intros [= _ _ <-]. by eapply listInvitations_no_post, E.
Qed.

(** The lookups, read off the lists they scan. *)
Lemma findUserByLogin_found login w currentUser w1 before u after w2 :
  h conn_GetCurrentUser w = (Ok currentUser, w1) ->
  h (conn_ListCustomerUsers (ToValue (CustomerID currentUser))) w1
    = (Ok (before ++ u :: after), w2) ->
  Forall (fun v => ToValue (Login v) <> login) before ->
  ToValue (Login u) = login ->
  run h (findUserByLogin login) w =
    (Ok (Some u), w2,
     [Called conn_GetCurrentUser;
      Called (conn_ListCustomerUsers (ToValue (CustomerID currentUser)))]).
Proof.
  intros H1 H2 Hb Hu. rewrite run_findUserByLogin, H1. cbv zeta. rewrite H2.
  rewrite find_first_intro; [done | | by apply bool_decide_eq_true_2].
  eapply Forall_impl; [exact Hb |]. intros v Hv. by apply bool_decide_eq_false_2.
Qed.

Lemma findUserByLogin_none login w currentUser w1 users w2 :
  h conn_GetCurrentUser w = (Ok currentUser, w1) ->
  h (conn_ListCustomerUsers (ToValue (CustomerID currentUser))) w1 = (Ok users, w2) ->
  Forall (fun v => ToValue (Login v) <> login) users ->
  run h (findUserByLogin login) w =
    (Ok None, w2,
     [Called conn_GetCurrentUser;
      Called (conn_ListCustomerUsers (ToValue (CustomerID currentUser)))]).
Proof.
  intros H1 H2 Hb. rewrite run_findUserByLogin, H1. cbv zeta. rewrite H2.
  replace (find _ users) with (@None User); [done |].
  symmetry. apply find_None_Forall.
  eapply Forall_impl; [exact Hb |]. intros v Hv. by apply bool_decide_eq_false_2.
Qed.

Lemma findUserByLogin_none_inv login w w2 t :
  run h (findUserByLogin login) w = (Ok None, w2, t) ->
  exists currentUser w1 users,
    h conn_GetCurrentUser w = (Ok currentUser, w1)
    /\ h (conn_ListCustomerUsers (ToValue (CustomerID currentUser))) w1 = (Ok users, w2)
    /\ Forall (fun v => ToValue (Login v) <> login) users.
Proof.
  rewrite run_findUserByLogin.
  destruct (h conn_GetCurrentUser w) as [[cu | err] w1]; [| done]. cbv zeta.
  destruct (h (conn_ListCustomerUsers _) w1) as [[users | err] w'] eqn:E; [| done].
  intros [= Hfind <- <-]. exists cu, w1, users. repeat split; [done |].
  apply find_None_Forall in Hfind.
  eapply Forall_impl; [exact Hfind |]. intros v Hv. cbn in Hv.
  by apply bool_decide_eq_false in Hv.
Qed.

Lemma findInvitationByEmail_found client email w listed w1 t before entry after :
  run h (listInvitations client) w = (Ok listed, w1, t) ->
  ls_Data listed = before ++ entry :: after ->
  Forall (fun e => at_Email (rd_Attributes e) <> email) before ->
  at_Email (rd_Attributes entry) = email ->
  run h (findInvitationByEmail client email) w = (Ok (Some (toInvitation entry)), w1, t).
Proof.
  intros H1 Hl Hb He. rewrite run_findInvitationByEmail, H1, Hl.
  rewrite find_first_intro; [done | | by apply bool_decide_eq_true_2].
  eapply Forall_impl; [exact Hb |]. intros v Hv. by apply bool_decide_eq_false_2.
Qed.

Lemma findInvitationByEmail_none client email w listed w1 t :
  run h (listInvitations client) w = (Ok listed, w1, t) ->
  Forall (fun e => at_Email (rd_Attributes e) <> email) (ls_Data listed) ->
  run h (findInvitationByEmail client email) w = (Ok None, w1, t).
Proof.
  intros H1 Hb. rewrite run_findInvitationByEmail, H1.
  replace (find _ (ls_Data listed)) with (@None invitationResponseData); [done |].
  symmetry. apply find_None_Forall.
  eapply Forall_impl; [exact Hb |]. intros v Hv. by apply bool_decide_eq_false_2.
Qed.

Lemma findInvitationByEmail_none_inv client email w w1 t :
  run h (findInvitationByEmail client email) w = (Ok None, w1, t) ->
  exists listed,
    run h (listInvitations client) w = (Ok listed, w1, t)
    /\ Forall (fun e => at_Email (rd_Attributes e) <> email) (ls_Data listed).
Proof.
  rewrite run_findInvitationByEmail.
  destruct (run h (listInvitations client) w) as [[[listed | err] w'] t']; [| done].
  destruct (find _ (ls_Data listed)) eqn:Hfind; [done |].
  intros [= <- <-]. exists listed. split; [done |].
  apply find_None_Forall in Hfind.
  eapply Forall_impl; [exact Hfind |]. intros v Hv. cbn in Hv.
  by apply bool_decide_eq_false in Hv.
Qed.

End Lookups.

(** ** The reconciliation state machine *)

Section Reconciliation.

Context {Body : Type} {rt : GoRuntime Body} {W : Type} (h : remote Body W).

Implicit Types (d : ResourceData string) (client : APIClient).


(** C2: when the bag has no user id (the invitation is still outstanding),
    an update that changes name or role fails with the precondition error;
    no call is made, and neither the remote nor the bag changes. *)
Theorem C2_update_pending_rejected client d w :
  d_Get "user_id" d = "" ->
  HasChanges ["name"; "role"] d = true ->
  run h (resourceUserUpdate client d) w =
    (d,
     [Errorf "cannot update user while invitation is still pending; please wait for the user to accept the invitation"],
     w, []).
Proof.
  intros Hu Hc. unfold resourceUserUpdate; cbv zeta.
  rewrite bool_decide_eq_true_2 by done. by rewrite Hc.
Qed.

(** C5: a read of a bag with a user id fetches that user by id and makes no
    other call.  Not-found clears the resource id and reports no error; any
    other error is reported and leaves the bag as it was; on success login,
    name and role take the fetched values (a field the record does not
    carry keeps its value) and the resource id and both identity fields
    stay. *)
Theorem C5_read_active client d w r w1 :
  d_Get "user_id" d <> "" ->
  h (conn_GetUser (d_Get "user_id" d)) w = (r, w1) ->
  exists d' diags,
    run h (resourceUserRead client d) w =
      (d', diags, w1, [refreshing d; Called (conn_GetUser (d_Get "user_id" d))])
    /\ match r with
       | Err err =>
           if IsNotFound err
           then Id d' = "" /\ attrs d' = attrs d /\ diags = []
           else d' = d /\ diags = [err]
       | Ok u =>
           diags = [] /\ Id d' = Id d
           /\ d_Get "user_id" d' = d_Get "user_id" d
           /\ d_Get "invitation_id" d' = d_Get "invitation_id" d
           /\ d_Get "login" d' = default (d_Get "login" d) (Login u)
           /\ d_Get "name" d' = default (d_Get "name" d) (Name u)
           /\ d_Get "role" d' = default (d_Get "role" d) (Role u)
       end.
Proof.
  intros Hu Hr. unfold resourceUserRead; cbv zeta; cbn [run].
  rewrite bool_decide_eq_true_2 by done. cbn [run]. rewrite Hr.
  destruct r as [u | err]; cbn [run].
  - do 2 eexists. split; [reflexivity |].
    rewrite Id_set_user_attributes, !d_Get_set_user_attributes_other by done.
    destruct (d_Get_set_user_attributes u d) as (-> & -> & ->). done.
  - destruct (IsNotFound err); cbn [run]; do 2 eexists; (split; [reflexivity | done]).
Qed.

(** C7: a delete of a bag with a user id deletes that user and makes no
    other call.  It succeeds when the remote deletes the user and when the
    remote answers not-found; any other error is reported. *)
Theorem C7_delete_active client d w r w1 :
  d_Get "user_id" d <> "" ->
  h (conn_DeleteUser (d_Get "user_id" d)) w = (r, w1) ->
  exists diags,
    run h (resourceUserDelete client d) w =
      (d, diags, w1, [Called (conn_DeleteUser (d_Get "user_id" d))])
    /\ (r = None -> diags = [])
    /\ (forall err, r = Some err -> IsNotFound err = true -> diags = [])
    /\ (r = Some (HTTPError 404) -> diags = [])
    /\ (forall err, r = Some err -> IsNotFound err = false -> diags = [err]).
Proof.
  intros Hu Hr. unfold resourceUserDelete; cbv zeta.
  rewrite bool_decide_eq_true_2 by done. cbn [run]. rewrite Hr.
  destruct r as [err |]; cbn [run].
  - destruct (IsNotFound err) eqn:E; cbn [run]; eexists;
      (split; [reflexivity |]); repeat split; intros; simplify_eq/=;
      try done; congruence.
  - eexists. split; [reflexivity |]. repeat split; done.
Qed.

(** C10: a read of a bag with neither identity field takes the resource id
    for a user id and fetches that user, with no other call.  On success
    the user id becomes the resource id, the invitation id is empty and
    login, name and role take the fetched values; not-found clears the
    resource id and reports no error; any other error is reported. *)
Theorem C10_read_import client d w r w1 :
  d_Get "user_id" d = "" ->
  d_Get "invitation_id" d = "" ->
  h (conn_GetUser (Id d)) w = (r, w1) ->
  exists d' diags,
    run h (resourceUserRead client d) w =
      (d', diags, w1, [refreshing d; Called (conn_GetUser (Id d))])
    /\ match r with
       | Err err =>
           if IsNotFound err
           then Id d' = "" /\ attrs d' = attrs d /\ diags = []
           else d' = d /\ diags = [err]
       | Ok u =>
           diags = [] /\ Id d' = Id d
           /\ d_Get "user_id" d' = Id d
           /\ d_Get "invitation_id" d' = ""
           /\ d_Get "login" d' = default (d_Get "login" d) (Login u)
           /\ d_Get "name" d' = default (d_Get "name" d) (Name u)
           /\ d_Get "role" d' = default (d_Get "role" d) (Role u)
       end.
Proof.
  intros Hu Hi Hr. unfold resourceUserRead; cbv zeta; cbn [run].
  rewrite Hu, Hi. rewrite !bool_decide_eq_false_2 by (intros H; by apply H).
  cbn [run]. rewrite Hr. destruct r as [u | err]; cbn [run].
  - do 2 eexists. split; [reflexivity |].
    rewrite Id_set_user_attributes, !d_Get_set_user_attributes_other by done.
    destruct (d_Get_set_user_attributes u
                (d_Set "invitation_id" "" (d_Set "user_id" (Id d) d)))
      as (-> & -> & ->).
    rewrite d_Get_Set_eq, d_Get_Set_ne, d_Get_Set_eq by done.
    rewrite !d_Get_Set_ne by done. done.
  - destruct (IsNotFound err); cbn [run]; do 2 eexists; (split; [reflexivity | done]).
Qed.

Lemma run_deleteInvitation client invitationID w :
  run h (deleteInvitation client invitationID) w =
  let '(r, w1, t) :=
    run h (doInvitationRequest client "DELETE" ("/invitations/" +:+ invitationID) None) w in
  (match r with
   | Err err => Some err
   | Ok resp =>
       if negb (HTTPStatusCode resp =? 200)%Z
          && negb (HTTPStatusCode resp =? 204)%Z
          && negb (HTTPStatusCode resp =? 404)%Z
       then Some (Errorf ("failed to delete invitation: " +:+ Status resp
                           +:+ " - " +:+ io_ReadAll (RespBody resp)))
       else None
   end, w1, t).
Proof.
  unfold deleteInvitation. apply run_bind_pure.
  intros [resp | err]; [| done]. by destruct (_ && _).
Qed.


(** What a read does with a bag that has an invitation id and no user id. *)
Lemma run_read_pending client d w :
  d_Get "user_id" d = "" ->
  d_Get "invitation_id" d <> "" ->
  run h (resourceUserRead client d) w =
  let '(r, w1, t1) := run h (findUserByLogin (d_Get "login" d)) w in
  match r with
  | Err err =>
      (d, [Wrap "error checking for user: " err], w1, refreshing d :: t1)
  | Ok (Some u) =>
      (set_user_attributes u
         (d_Set "invitation_id" ""
            (d_Set "user_id" (ToValue (UserID u)) (SetId (ToValue (UserID u)) d))),
       [], w1,
       refreshing d :: t1 ++
       [Logged "[DEBUG] User %s accepted invitation, transitioning to user_id %s"
               [LStr (d_Get "login" d); LStr (ToValue (UserID u))]])
  | Ok None =>
      let '(r2, w2, t2) := run h (getInvitation client (d_Get "invitation_id" d)) w1 in
      match r2 with
      | Err _ =>
          (SetId "" d, [], w2,
           refreshing d :: t1 ++ t2 ++
           [Logged "[DEBUG] Invitation %s no longer exists, will recreate on next apply"
                   [LStr (d_Get "invitation_id" d)]])
      | Ok invitation =>
          (d, [], w2,
           refreshing d :: t1 ++ t2 ++
           [Logged "[DEBUG] Invitation %s still pending for %s (status_code: %d)"
                   [LStr (d_Get "invitation_id" d); LStr (d_Get "login" d);
                    LInt (StatusCode invitation)]])
      end
  end.
Proof.
  intros Hu Hi. unfold resourceUserRead; cbv zeta; cbn [run].
  rewrite (bool_decide_eq_false_2 (d_Get "user_id" d <> ""))
    by (rewrite Hu; intros H; by apply H).
  rewrite bool_decide_eq_true_2 by done. rewrite run_bind.
  destruct (run h (findUserByLogin _) w) as [[[[u |] | err] w1] t1]; cbn [run].
  - done.
  - rewrite run_bind.
    destruct (run h (getInvitation _ _) w1) as [[[inv | err] w2] t2]; cbn [run]; done.
  - by rewrite app_nil_r.
Qed.



Lemma as_user_fields userID d :
  Id (as_user userID d) = userID
  /\ d_Get "user_id" (as_user userID d) = userID
  /\ d_Get "invitation_id" (as_user userID d) = "".
Proof.
  unfold as_user. repeat split.
  - by rewrite d_Get_Set_ne, d_Get_Set_eq.
  - by rewrite d_Get_Set_eq.
Qed.

Lemma as_invitation_fields invitationID d :
  Id (as_invitation invitationID d) = invitationID
  /\ d_Get "invitation_id" (as_invitation invitationID d) = invitationID
  /\ d_Get "user_id" (as_invitation invitationID d) = "".
Proof.
  unfold as_invitation. repeat split.
  - by rewrite d_Get_Set_ne, d_Get_Set_eq.
  - by rewrite d_Get_Set_eq.
Qed.

(** What a read does with a bag that has a user id. *)
Lemma run_read_active client d w :
  d_Get "user_id" d <> "" ->
  run h (resourceUserRead client d) w =
  let '(r, w1) := h (conn_GetUser (d_Get "user_id" d)) w in
  (match r with
   | Ok u => (set_user_attributes u d, [])
   | Err err => if IsNotFound err then (SetId "" d, []) else (d, [err])
   end, w1, [refreshing d; Called (conn_GetUser (d_Get "user_id" d))]).
Proof.
  intros Hu. unfold resourceUserRead; cbv zeta; cbn [run].
  rewrite bool_decide_eq_true_2 by done. cbn [run].
  destruct (h (conn_GetUser _) w) as [[u | err] w1]; cbn [run]; [done |].
  by destruct (IsNotFound err).
Qed.

(** What a read does with a bag that has neither identity field. *)
Lemma run_read_import client d w :
  d_Get "user_id" d = "" ->
  d_Get "invitation_id" d = "" ->
  run h (resourceUserRead client d) w =
  let '(r, w1) := h (conn_GetUser (Id d)) w in
  (match r with
   | Ok u =>
       (set_user_attributes u
          (d_Set "invitation_id" "" (d_Set "user_id" (Id d) d)), [])
   | Err err => if IsNotFound err then (SetId "" d, []) else (d, [err])
   end, w1, [refreshing d; Called (conn_GetUser (Id d))]).
Proof.
  intros Hu Hi. unfold resourceUserRead; cbv zeta; cbn [run].
  rewrite Hu, Hi. rewrite !bool_decide_eq_false_2 by (intros H; by apply H).
  cbn [run].
  destruct (h (conn_GetUser _) w) as [[u | err] w1]; cbn [run]; [done |].
  by destruct (IsNotFound err).
Qed.

Lemma run_createInvitation client email role customerID w :
  run h (createInvitation client email role customerID) w =
  match json_Marshal
          {| rq_Data :=
               {| id_Type := "invitation";
                  id_Attributes :=
                    {| ia_Email := email; ia_LimitServices := false;
                       ia_Role := role; ia_Roles := [] |};
                  id_Relationships :=
                    {| Customer :=
                         {| cr_Data := {| cd_ID := customerID; cd_Type := "customer" |} |} |}
               |} |} with
  | Err err => (Err err, w, [])
  | Ok body =>
      let '(r, w1, t) :=
        run h (doInvitationRequest client "POST" "/invitations" (Some body)) w in
      (match r with
       | Err err => Err err
       | Ok resp =>
           if negb (HTTPStatusCode resp =? 200)%Z
              && negb (HTTPStatusCode resp =? 201)%Z
           then Err (Errorf ("failed to create invitation: " +:+ Status resp
                              +:+ " - " +:+ io_ReadAll (RespBody resp)))
           else Decode_invitationResponse (RespBody resp)
       end, w1, t)
  end.
Proof.
  unfold createInvitation; cbv zeta.
  destruct (json_Marshal _) as [body | err]; [| done].
  apply run_bind_pure. intros [resp | err]; [| done]. by destruct (_ && _).
Qed.

(** What a create does, lookup after lookup. *)
Lemma run_create client d w :
  run h (resourceUserCreate client d) w =
  let '(r, w1, t1) := run h (findUserByLogin (d_Get "login" d)) w in
  match r with
  | Err err => (d, [Wrap "error checking for existing user: " err], w1, t1)
  | Ok (Some u) =>
      let '(out, w2, t2) :=
        run h (resourceUserRead client (as_user (ToValue (UserID u)) d)) w1 in
      (out, w2, t1 ++ t2)
  | Ok None =>
      let '(r2, w2, t2) := run h (findInvitationByEmail client (d_Get "login" d)) w1 in
      match r2 with
      | Err err =>
          (d, [Wrap "error checking for existing invitation: " err], w2, t1 ++ t2)
      | Ok (Some inv) =>
          (as_invitation (ID inv) d, [], w2,
           t1 ++ t2 ++ [Logged "[DEBUG] Found existing invitation for %s: %s"
                               [LStr (d_Get "login" d); LStr (ID inv)]])
      | Ok None =>
          let '(r3, w3) := h conn_GetCurrentUser w2 in
          match r3 with
          | Err err =>
              (d, [Wrap "error getting current user: " err], w3,
               t1 ++ t2 ++ [Called conn_GetCurrentUser])
          | Ok currentUser =>
              let '(r4, w4, t4) :=
                run h (createInvitation client (d_Get "login" d) (d_Get "role" d)
                         (ToValue (CustomerID currentUser))) w3 in
              match r4 with
              | Err err =>
                  (d, [Wrap "error creating invitation: " err], w4,
                   t1 ++ t2 ++ Called conn_GetCurrentUser :: t4)
              | Ok invitation =>
                  (as_invitation (rd_ID (rs_Data invitation)) d, [], w4,
                   t1 ++ t2 ++ Called conn_GetCurrentUser :: t4 ++
                   [Logged "[DEBUG] Created invitation for %s: %s"
                           [LStr (d_Get "login" d); LStr (rd_ID (rs_Data invitation))]])
              end
          end
      end
  end.
Proof.
  unfold resourceUserCreate; cbv zeta. rewrite run_bind.
  destruct (run h (findUserByLogin _) w) as [[[[u |] | err] w1] t1]; cbn [run].
  - done.
  - rewrite run_bind.
    destruct (run h (findInvitationByEmail _ _) w1) as [[[[inv |] | err] w2] t2];
      cbn [run]; rewrite ?app_nil_r; try done.
    destruct (h conn_GetCurrentUser w2) as [[cu | err] w3]; cbn [run]; [| done].
    rewrite run_bind.
    destruct (run h (createInvitation _ _ _ _) w3) as [[[invitation | err] w4] t4];
      cbn [run]; [done |]. by rewrite app_nil_r.
  - by rewrite app_nil_r.
Qed.

(** A read moves the identity fields in one of two ways: it leaves both as
    they were (and keeps or clears the resource id), or it starts from a
    bag without user id and ends with an empty invitation id and the user
    id equal to the resource id. *)
Lemma read_identity client d w :
  let d' := (run h (resourceUserRead client d) w).1.1.1 in
  (d_Get "user_id" d' = d_Get "user_id" d
   /\ d_Get "invitation_id" d' = d_Get "invitation_id" d
   /\ (Id d' = Id d \/ Id d' = ""))
  \/ (d_Get "user_id" d = ""
      /\ d_Get "invitation_id" d' = ""
      /\ d_Get "user_id" d' = Id d'
      /\ (d_Get "invitation_id" d <> "" \/ Id d' = Id d)).
Proof.
  cbv zeta.
  destruct (decide (d_Get "user_id" d = "")) as [Hu | Hu];
    [destruct (decide (d_Get "invitation_id" d = "")) as [Hi | Hi] |].
  - rewrite run_read_import by done.
    destruct (h (conn_GetUser _) w) as [[u | err] w1]; cbn.
    + right. rewrite Id_set_user_attributes.
      rewrite !d_Get_set_user_attributes_other by done.
      rewrite d_Get_Set_eq, d_Get_Set_ne, d_Get_Set_eq by done. auto.
    + left. destruct (IsNotFound err); cbn; auto.
  - rewrite run_read_pending by done.
    destruct (run h (findUserByLogin _) w) as [[[[u |] | err] w1] t1]; cbn.
    + right. rewrite Id_set_user_attributes.
      rewrite !d_Get_set_user_attributes_other by done.
      rewrite d_Get_Set_eq, d_Get_Set_ne, d_Get_Set_eq by done. auto.
    + left.
      destruct (run h (getInvitation _ _) w1) as [[[inv | err] w2] t2]; cbn; auto.
    + left. auto.
  - rewrite run_read_active by done.
    destruct (h (conn_GetUser _) w) as [[u | err] w1]; cbn.
    + left. rewrite Id_set_user_attributes.
      rewrite !d_Get_set_user_attributes_other by done. auto.
    + left. destruct (IsNotFound err); cbn; auto.
Qed.

(** A read of a bag without invitation id never asks the invitation
    endpoint. *)
Lemma read_no_http client d w :
  d_Get "invitation_id" d = "" ->
  existsb is_http (run h (resourceUserRead client d) w).2 = false.
Proof.
  intros Hi. destruct (decide (d_Get "user_id" d = "")) as [Hu | Hu].
  - rewrite run_read_import by done. by destruct (h (conn_GetUser _) w).
  - rewrite run_read_active by done. by destruct (h (conn_GetUser _) w).
Qed.

(** A create that succeeded made the POST. *)
Lemma createInvitation_posts client email role customerID w invitation w1 t :
  run h (createInvitation client email role customerID) w = (Ok invitation, w1, t) ->
  existsb is_post t = true.
Proof.
  rewrite run_createInvitation.
  destruct (json_Marshal _) as [body | err]; [| done].
  destruct (run h (doInvitationRequest _ _ _ _) w) as [[r' w'] t'] eqn:E.
  intros [= Hr <- <-].
  apply run_doInvitationRequest in E
    as [(_ & _ & err & -> & _) | (req & -> & Hm & _)]; [done |].
  cbn. rewrite Hm. done.
Qed.

(** C1 (as amended): a create starts with the lookup of the user by
    login.  If the customer's user list has a user with that login, the
    first such user is taken: resource id and user id are set to its id,
    the invitation id is emptied, nothing is asked of the invitation
    endpoint, and the user is fetched by id as in a read; when the fetch
    succeeds the create reports no error and the bag holds that user's id
    as resource id and user id, with login, name and role from the fetched
    record; when the fetch says not-found the resource id is cleared, and
    any other error is reported.  If no listed user has the login and the
    invitation list has an invitation for exactly that email, the first
    such invitation is adopted: resource id and invitation id are its id,
    the user id is empty, no POST is sent.  If neither list has a match,
    the invitation is created by a POST and the bag holds the new id.  A
    POST is sent only when both lists were fetched and had no match. *)
Theorem C1_create_resolution client d w :
  (forall r w1 t1,
     run h (findUserByLogin (d_Get "login" d)) w = (r, w1, t1) ->
     exists rest, (run h (resourceUserCreate client d) w).2 = t1 ++ rest)
  /\ (forall currentUser w1 before u after w2 r w3,
        h conn_GetCurrentUser w = (Ok currentUser, w1) ->
        h (conn_ListCustomerUsers (ToValue (CustomerID currentUser))) w1
          = (Ok (before ++ u :: after), w2) ->
        Forall (fun v => ToValue (Login v) <> d_Get "login" d) before ->
        ToValue (Login u) = d_Get "login" d ->
        h (conn_GetUser (ToValue (UserID u))) w2 = (r, w3) ->
        exists d' diags t,
          run h (resourceUserCreate client d) w = (d', diags, w3, t)
          /\ existsb is_http t = false
          /\ d_Get "user_id" d' = ToValue (UserID u)
          /\ d_Get "invitation_id" d' = ""
          /\ match r with
             | Ok fetched =>
                 diags = [] /\ Id d' = ToValue (UserID u)
                 /\ d_Get "login" d' = default (d_Get "login" d) (Login fetched)
                 /\ d_Get "name" d' = default (d_Get "name" d) (Name fetched)
                 /\ d_Get "role" d' = default (d_Get "role" d) (Role fetched)
             | Err err =>
                 if IsNotFound err then diags = [] /\ Id d' = ""
                 else diags = [err] /\ Id d' = ToValue (UserID u)
             end)
  /\ (forall currentUser w1 users w2 listed w3 t3 before entry after,
        h conn_GetCurrentUser w = (Ok currentUser, w1) ->
        h (conn_ListCustomerUsers (ToValue (CustomerID currentUser))) w1
          = (Ok users, w2) ->
        Forall (fun v => ToValue (Login v) <> d_Get "login" d) users ->
        run h (listInvitations client) w2 = (Ok listed, w3, t3) ->
        ls_Data listed = before ++ entry :: after ->
        Forall (fun e => at_Email (rd_Attributes e) <> d_Get "login" d) before ->
        at_Email (rd_Attributes entry) = d_Get "login" d ->
        exists d' t,
          run h (resourceUserCreate client d) w = (d', [], w3, t)
          /\ Id d' = rd_ID entry
          /\ d_Get "invitation_id" d' = rd_ID entry
          /\ d_Get "user_id" d' = ""
          /\ existsb is_post t = false)
  /\ (forall currentUser w1 users w2 listed w3 t3 inviter w4 invitation w5 t5,
        h conn_GetCurrentUser w = (Ok currentUser, w1) ->
        h (conn_ListCustomerUsers (ToValue (CustomerID currentUser))) w1
          = (Ok users, w2) ->
        Forall (fun v => ToValue (Login v) <> d_Get "login" d) users ->
        run h (listInvitations client) w2 = (Ok listed, w3, t3) ->
        Forall (fun e => at_Email (rd_Attributes e) <> d_Get "login" d)
               (ls_Data listed) ->
        h conn_GetCurrentUser w3 = (Ok inviter, w4) ->
        run h (createInvitation client (d_Get "login" d) (d_Get "role" d)
                 (ToValue (CustomerID inviter))) w4
          = (Ok invitation, w5, t5) ->
        exists d' t,
          run h (resourceUserCreate client d) w = (d', [], w5, t)
          /\ Id d' = rd_ID (rs_Data invitation)
          /\ d_Get "invitation_id" d' = rd_ID (rs_Data invitation)
          /\ d_Get "user_id" d' = ""
          /\ existsb is_post t = true)
  /\ (existsb is_post (run h (resourceUserCreate client d) w).2 = true ->
      exists currentUser w1 users w2 listed w3 t3,
        h conn_GetCurrentUser w = (Ok currentUser, w1)
        /\ h (conn_ListCustomerUsers (ToValue (CustomerID currentUser))) w1
             = (Ok users, w2)
        /\ Forall (fun v => ToValue (Login v) <> d_Get "login" d) users
        /\ run h (listInvitations client) w2 = (Ok listed, w3, t3)
        /\ Forall (fun e => at_Email (rd_Attributes e) <> d_Get "login" d)
                  (ls_Data listed)).
Proof.
  split; [| split; [| split; [| split]]].
  - intros r w1 t1 Hr. rewrite run_create, Hr.
    destruct r as [[u |] | err]; cbn [fst snd].
    + destruct (run h (resourceUserRead _ _) w1) as [[out w2] t2]; cbn [fst snd]. eauto.
    + destruct (run h (findInvitationByEmail _ _) w1) as [[[[inv |] | err] w2] t2];
        cbn [fst snd]; eauto.
      destruct (h conn_GetCurrentUser w2) as [[cu | err] w3]; cbn [fst snd]; eauto.
      destruct (run h (createInvitation _ _ _ _) w3) as [[[i | err] w4] t4];
        cbn [fst snd]; eauto.
    + exists []. by rewrite app_nil_r.
  - intros cu w1 before u after w2 r w3 H1 H2 Hb Hu Hg.
    rewrite run_create, (findUserByLogin_found h _ _ _ _ _ _ _ _ H1 H2 Hb Hu).
    destruct (as_user_fields (ToValue (UserID u)) d) as (HI & HU & HV).
    assert (run h (resourceUserRead client (as_user (ToValue (UserID u)) d)) w2
            = (match r with
               | Ok fetched =>
                   (if decide (ToValue (UserID u) = "")
                    then set_user_attributes fetched
                           (d_Set "invitation_id" ""
                              (d_Set "user_id" (ToValue (UserID u))
                                 (as_user (ToValue (UserID u)) d)))
                    else set_user_attributes fetched (as_user (ToValue (UserID u)) d),
                    [])
               | Err err =>
                   if IsNotFound err
                   then (SetId "" (as_user (ToValue (UserID u)) d), [])
                   else (as_user (ToValue (UserID u)) d, [err])
               end, w3,
               [refreshing (as_user (ToValue (UserID u)) d);
                Called (conn_GetUser (ToValue (UserID u)))])) as Hread.
    { destruct (decide (ToValue (UserID u) = "")) as [E | E].
      - rewrite run_read_import by congruence. rewrite HI, Hg. by destruct r.
      - rewrite run_read_active by congruence. rewrite HU, Hg. by destruct r. }
    rewrite Hread.
    destruct r as [fetched | err].
    + do 3 eexists. split; [reflexivity |]. split; [done |].
      destruct (decide (ToValue (UserID u) = "")) as [E | E].
      * rewrite Id_set_user_attributes, !d_Get_set_user_attributes_other by done.
        destruct (d_Get_set_user_attributes fetched
                    (d_Set "invitation_id" ""
                       (d_Set "user_id" (ToValue (UserID u))
                          (as_user (ToValue (UserID u)) d)))) as (-> & -> & ->).
        rewrite d_Get_Set_eq, d_Get_Set_ne, d_Get_Set_eq by done.
        rewrite !d_Get_Set_ne by done.
        unfold as_user at 1 2 3 4. rewrite !d_Get_Set_ne by done.
        rewrite !Id_d_Set. done.
      * rewrite Id_set_user_attributes, !d_Get_set_user_attributes_other by done.
        destruct (d_Get_set_user_attributes fetched
                    (as_user (ToValue (UserID u)) d)) as (-> & -> & ->).
        rewrite HI, HU, HV. unfold as_user. rewrite !d_Get_Set_ne by done. done.
    + destruct (IsNotFound err); do 3 eexists;
        (split; [reflexivity |]); (split; [done |]);
        rewrite ?d_Get_SetId, HU, HV; repeat split; try done.
  - intros cu w1 users w2 listed w3 t3 before entry after H1 H2 Hu Hl Hd Hb He.
    rewrite run_create, (findUserByLogin_none h _ _ _ _ _ _ H1 H2 Hu).
    rewrite (findInvitationByEmail_found h _ _ _ _ _ _ _ _ _ Hl Hd Hb He).
    destruct (as_invitation_fields (ID (toInvitation entry)) d) as (HI & HV & HU).
    do 2 eexists. split; [reflexivity |]. repeat split; try done.
    cbn [app existsb is_post]. rewrite existsb_app.
    rewrite (listInvitations_no_post h _ _ _ _ _ Hl). done.
  - intros cu w1 users w2 listed w3 t3 inviter w4 invitation w5 t5
      H1 H2 Hu Hl Hb H3 H4.
    rewrite run_create, (findUserByLogin_none h _ _ _ _ _ _ H1 H2 Hu).
    rewrite (findInvitationByEmail_none h _ _ _ _ _ _ Hl Hb), H3, H4.
    destruct (as_invitation_fields (rd_ID (rs_Data invitation)) d) as (HI & HV & HU).
    do 2 eexists. split; [reflexivity |]. repeat split; try done.
    cbn [app existsb is_post]. rewrite !existsb_app. cbn [existsb is_post].
    rewrite existsb_app, (createInvitation_posts _ _ _ _ _ _ _ _ H4).
    by rewrite !orb_true_r.
  - rewrite run_create.
    destruct (run h (findUserByLogin _) w) as [[r w1] t1] eqn:Hr.
    pose proof (existsb_is_post_le _ (findUserByLogin_no_http h _ _ _ _ _ Hr)) as P1.
    destruct r as [[u |] | err]; cbn [fst snd].
    + pose proof (read_no_http client (as_user (ToValue (UserID u)) d) w1
                    ltac:(apply as_user_fields)) as Hno.
      destruct (run h (resourceUserRead _ _) w1) as [[out w2] t2]; cbn [fst snd] in *.
      rewrite existsb_app, P1, (existsb_is_post_le _ Hno). done.
    + destruct (run h (findInvitationByEmail _ _) w1) as [[r2 w2] t2] eqn:Hr2.
      pose proof (findInvitationByEmail_no_post h _ _ _ _ _ _ Hr2) as P2.
      destruct r2 as [[inv |] | err]; cbn [fst snd].
      * rewrite !existsb_app, P1, P2. done.
      * intros _.
        apply findUserByLogin_none_inv in Hr as (cu & wa & users & ? & ? & ?).
        apply findInvitationByEmail_none_inv in Hr2 as (listed & ? & ?).
        eauto 12.
      * rewrite !existsb_app, P1, P2. done.
    + by rewrite P1.
Qed.

(** A delete never writes to the bag. *)
Lemma delete_keeps_bag client d w :
  (run h (resourceUserDelete client d) w).1.1.1 = d.
Proof.
  unfold resourceUserDelete; cbv zeta.
  destruct (bool_decide (d_Get "user_id" d <> "")); cbn [run].
  - destruct (h (conn_DeleteUser _) w) as [[err |] w1]; cbn [run]; [| done].
    by destruct (IsNotFound err).
  - destruct (bool_decide (d_Get "invitation_id" d <> "")); [| done].
    rewrite run_bind.
    destruct (run h (deleteInvitation _ _) w) as [[[err |] w1] t1]; done.
Qed.

(** The bag after an update is the bag before it or the bag a read makes
    of it. *)
Lemma update_bag client d w :
  (run h (resourceUserUpdate client d) w).1.1.1 = d
  \/ exists w1,
       (run h (resourceUserUpdate client d) w).1.1.1
       = (run h (resourceUserRead client d) w1).1.1.1.
Proof.
  unfold resourceUserUpdate; cbv zeta.
  destruct (bool_decide (d_Get "user_id" d = "")).
  - left. by destruct (HasChanges _ d).
  - destruct (HasChanges _ d); [| right; by exists w].
    cbn [run]. destruct (h (conn_UpdateUser _ _ _) w) as [[u | err] w1].
    + right. exists w1.
      by destruct (run h (resourceUserRead client d) w1) as [[out w2] t2].
    + by left.
Qed.

(** C3: whichever of create, read, update and delete runs, and whatever the
    remote answers, a bag in which at most one identity field is set comes
    out with at most one identity field set; and the handler either leaves
    both identity fields as they were or leaves one of them empty. *)
Theorem C3_identities_exclusive op client d w :
  let d' := (run h (resourceUser op client d) w).1.1.1 in
  (exclusive d -> exclusive d')
  /\ ((d_Get "user_id" d' = d_Get "user_id" d
       /\ d_Get "invitation_id" d' = d_Get "invitation_id" d)
      \/ exclusive d').
Proof.
  cbv zeta.
  assert (Hread : forall d0 w0,
            (d_Get "user_id" (run h (resourceUserRead client d0) w0).1.1.1
               = d_Get "user_id" d0
             /\ d_Get "invitation_id" (run h (resourceUserRead client d0) w0).1.1.1
                = d_Get "invitation_id" d0)
            \/ exclusive (run h (resourceUserRead client d0) w0).1.1.1).
  { intros d0 w0.
    destruct (read_identity client d0 w0) as [(? & ? & _) | (_ & ? & _)];
      [left | right; left]; done. }
  assert (Hstep :
            (d_Get "user_id" (run h (resourceUser op client d) w).1.1.1
               = d_Get "user_id" d
             /\ d_Get "invitation_id" (run h (resourceUser op client d) w).1.1.1
                = d_Get "invitation_id" d)
            \/ exclusive (run h (resourceUser op client d) w).1.1.1).
  { destruct op; cbn [resourceUser].
    - rewrite run_create.
      destruct (run h (findUserByLogin _) w) as [[[[u |] | err] w1] t1];
        cbn [fst snd]; [| | by left].
      + destruct (Hread (as_user (ToValue (UserID u)) d) w1) as [[_ E] | E].
        * destruct (run h (resourceUserRead _ _) w1) as [[out w2] t2].
          cbn [fst snd] in *. right. left. rewrite E. apply as_user_fields.
        * destruct (run h (resourceUserRead _ _) w1) as [[out w2] t2]. by right.
      + destruct (run h (findInvitationByEmail _ _) w1) as [[[[inv |] | err] w2] t2];
          cbn [fst snd]; [| | by left].
        * right. right. apply as_invitation_fields.
        * destruct (h conn_GetCurrentUser w2) as [[cu | err] w3];
            cbn [fst snd]; [| by left].
          destruct (run h (createInvitation _ _ _ _) w3) as [[[i | err] w4] t4];
            cbn [fst snd]; [| by left].
          right. right. apply as_invitation_fields.
    - apply Hread.
    - destruct (update_bag client d w) as [-> | [w1 ->]]; [by left | apply Hread].
    - rewrite delete_keeps_bag. by left. }
  split; [| exact Hstep].
  intros Hex. destruct Hstep as [[E1 E2] | ?]; [| done].
  unfold exclusive. rewrite E1, E2. exact Hex.
Qed.

(** *** Creating twice *)


Lemma run_observes {A} (p : prog Body A) w :
  read_only h ->
  forallb observes (run h p w).2 = true ->
  (run h p w).1.2 = w.
Proof.
  intros Hro. revert w.
  induction p as [a | c k IH | format args k IH]; intros w; cbn [run].
  - done.
  - specialize (Hro c w). destruct (h c w) as [x w1]. specialize (IH x w1).
    destruct (run h (k x) w1) as [[a w2] t]. cbn [fst snd forallb observes] in *.
    intros [Hc Ht]%andb_prop. rewrite IH by done. by apply Hro.
  - specialize (IH w). destruct (run h k w) as [[a w2] t].
    cbn [fst snd forallb observes] in *. done.
Qed.

Lemma observes_no_post (t : list (event Body)) :
  forallb observes t = true -> existsb is_post t = false.
Proof.
  induction t as [| e t IH]; [done |]. cbn [forallb existsb].
  intros [He Ht]%andb_prop. rewrite IH by done.
  destruct e as [[] |]; try done. cbn in *.
  apply bool_decide_eq_true in He. rewrite He. done.
Qed.

Lemma findUserByLogin_observes login w :
  forallb observes (run h (findUserByLogin login) w).2 = true.
Proof.
  rewrite run_findUserByLogin.
  destruct (h conn_GetCurrentUser w) as [[cu | err] w1]; [| done]. cbv zeta.
  by destruct (h (conn_ListCustomerUsers _) w1) as [[users | err] w2].
Qed.

Lemma listInvitations_observes client w :
  forallb observes (run h (listInvitations client) w).2 = true.
Proof.
  rewrite run_listInvitations.
  destruct (run h (doInvitationRequest _ _ _ _) w) as [[r w1] t] eqn:E.
  apply run_doInvitationRequest in E
    as [(-> & _) | (req & -> & Hm & _)]; [done |].
  cbn. rewrite Hm. done.
Qed.

Lemma findInvitationByEmail_observes client email w :
  forallb observes (run h (findInvitationByEmail client email) w).2 = true.
Proof.
  rewrite run_findInvitationByEmail.
  pose proof (listInvitations_observes client w) as H.
  by destruct (run h (listInvitations client) w) as [[r w1] t].
Qed.

Lemma getInvitation_observes client invitationID w :
  forallb observes (run h (getInvitation client invitationID) w).2 = true.
Proof.
  rewrite run_getInvitation.
  pose proof (listInvitations_observes client w) as H.
  by destruct (run h (listInvitations client) w) as [[r w1] t].
Qed.

(** A read only asks. *)
Lemma read_observes client d w :
  forallb observes (run h (resourceUserRead client d) w).2 = true.
Proof.
  destruct (decide (d_Get "user_id" d = "")) as [Hu | Hu];
    [destruct (decide (d_Get "invitation_id" d = "")) as [Hi | Hi] |].
  - rewrite run_read_import by done. by destruct (h (conn_GetUser _) w).
  - rewrite run_read_pending by done.
    pose proof (findUserByLogin_observes (d_Get "login" d) w) as H1.
    destruct (run h (findUserByLogin _) w) as [[[[u |] | err] w1] t1];
      cbn [fst snd forallb observes] in *.
    + by rewrite forallb_app, H1.
    + pose proof (getInvitation_observes client (d_Get "invitation_id" d) w1) as H2.
      destruct (run h (getInvitation _ _) w1) as [[[inv | err] w2] t2];
        cbn [fst snd forallb observes] in *; by rewrite !forallb_app, H1, H2.
    + done.
  - rewrite run_read_active by done. by destruct (h (conn_GetUser _) w).
Qed.

Lemma run_observes_eq {A} (p : prog Body A) w a w1 t :
  read_only h ->
  forallb observes (run h p w).2 = true ->
  run h p w = (a, w1, t) -> w1 = w.
Proof.
  intros Hro Hobs E. pose proof (run_observes p w Hro Hobs) as H.
  by rewrite E in H.
Qed.

Lemma findUserByLogin_same login w w' :
  read_only h ->
  (h conn_GetCurrentUser w').1 = (h conn_GetCurrentUser w).1 ->
  (forall cid,
     (h (conn_ListCustomerUsers cid) w').1 = (h (conn_ListCustomerUsers cid) w).1) ->
  (run h (findUserByLogin login) w').1.1 = (run h (findUserByLogin login) w).1.1.
Proof.
  intros Hro H1 H2. rewrite !run_findUserByLogin.
  pose proof (Hro conn_GetCurrentUser w eq_refl) as E.
  pose proof (Hro conn_GetCurrentUser w' eq_refl) as E'.
  destruct (h conn_GetCurrentUser w) as [r0 w0].
  destruct (h conn_GetCurrentUser w') as [r0' w0'].
  cbn [fst snd] in *. subst. destruct r0 as [cu | err]; [| done]. cbv zeta.
  specialize (H2 (ToValue (CustomerID cu))).
  destruct (h (conn_ListCustomerUsers _) w) as [r1 w1].
  destruct (h (conn_ListCustomerUsers _) w') as [r1' w1'].
  cbn [fst snd] in *. subst. by destruct r1.
Qed.

(** C9 (as amended): against a remote whose state is fixed while it is
    only asked and which lists an invitation it created under the email
    it was created for, a create that succeeded, repeated on the same bag,
    succeeds again with the same resource id, user id and invitation id;
    the second one sends no POST and leaves the remote as the first one
    left it. *)
Theorem C9_create_twice client d w d1 w1 t1 :
  read_only h ->
  lists_created h client ->
  run h (resourceUserCreate client d) w = (d1, [], w1, t1) ->
  exists d2 t2,
    run h (resourceUserCreate client d) w1 = (d2, [], w1, t2)
    /\ Id d2 = Id d1
    /\ d_Get "user_id" d2 = d_Get "user_id" d1
    /\ d_Get "invitation_id" d2 = d_Get "invitation_id" d1
    /\ existsb is_post t2 = false.
Proof.
  intros Hro Hlc Hrun.
  destruct (forallb observes t1) eqn:Hobs.
  - (* the first create only asked: the second one sees the same remote *)
    assert (w1 = w) as ->.
    { eapply run_observes_eq; [done | | exact Hrun]. by rewrite Hrun. }
    exists d1, t1. rewrite Hrun. repeat split. by apply observes_no_post.
  - (* the first create created the invitation *)
    rewrite run_create in Hrun.
    pose proof (findUserByLogin_observes (d_Get "login" d) w) as O1.
    destruct (run h (findUserByLogin _) w) as [[r wa] ta] eqn:E1.
    pose proof (run_observes_eq _ _ _ _ _ Hro ltac:(by rewrite E1) E1) as ->.
    cbn [snd] in O1.
    destruct r as [[u |] | err]; [| | done].
    { pose proof (read_observes client (as_user (ToValue (UserID u)) d) w) as O2.
      destruct (run h (resourceUserRead _ _) w) as [[out w2] t2].
      injection Hrun as _ _ <-. cbn [snd] in O2.
      by rewrite forallb_app, O1, O2 in Hobs. }
    pose proof (findInvitationByEmail_observes client (d_Get "login" d) w) as O2.
    destruct (run h (findInvitationByEmail _ _) w) as [[r2 wb] tb] eqn:E2.
    pose proof (run_observes_eq _ _ _ _ _ Hro ltac:(by rewrite E2) E2) as ->.
    cbn [snd] in O2.
    destruct r2 as [[inv |] | err]; [| | done].
    { injection Hrun as _ _ <-.
      by rewrite !forallb_app, O1, O2 in Hobs. }
    pose proof (Hro conn_GetCurrentUser w eq_refl) as O3.
    destruct (h conn_GetCurrentUser w) as [[cu | err] wc] eqn:E3; [| done].
    cbn [snd] in O3. subst wc.
    destruct (run h (createInvitation _ _ _ _) w) as [[[i | err] w4] t4] eqn:E4;
      [| done].
    injection Hrun as <- <- <-.
    destruct (Hlc _ _ _ _ _ _ _ E4) as (Hcu & Hlist & Hlisted).
    (* the user lookup answers as before *)
    pose proof (findUserByLogin_same (d_Get "login" d) w w4 Hro
                  ltac:(by rewrite Hcu, E3) Hlist) as Hsame.
    rewrite E1 in Hsame. cbn [fst] in Hsame.
    pose proof (findUserByLogin_observes (d_Get "login" d) w4) as P1.
    destruct (run h (findUserByLogin _) w4) as [[r' wa] ta'] eqn:F1.
    pose proof (run_observes_eq _ _ _ _ _ Hro ltac:(by rewrite F1) F1) as ->.
    cbn [fst snd] in Hsame, P1. subst r'.
    (* the listing shows the created invitation first for the email *)
    apply findInvitationByEmail_none_inv in E2 as (listed & EL & Hnone).
    destruct (Hlisted listed ltac:(by rewrite EL) Hnone)
      as (listed1 & before & entry & after & EL1 & Hd & Hb & He & Hid).
    pose proof (listInvitations_observes client w4) as P2.
    destruct (run h (listInvitations client) w4) as [[rl wl] tl] eqn:FL.
    pose proof (run_observes_eq _ _ _ _ _ Hro ltac:(by rewrite FL) FL) as ->.
    cbn [fst snd] in EL1, P2. subst rl.
    pose proof (findInvitationByEmail_found h _ _ _ _ _ _ _ _ _ FL Hd Hb He) as F2.
    rewrite run_create, F1, F2.
    destruct (as_invitation_fields (ID (toInvitation entry)) d) as (HI & HV & HU).
    destruct (as_invitation_fields (rd_ID (rs_Data i)) d) as (HI' & HV' & HU').
    do 2 eexists. split; [reflexivity |].
    rewrite HI, HV, HU, HI', HV', HU'. cbn [ID toInvitation].
    repeat split; try done.
    rewrite !existsb_app, (observes_no_post _ P1), (observes_no_post _ P2). done.
Qed.

End Reconciliation.


(** ** Further properties of the handlers and their helpers *)


Section Helpers.

Context {Body : Type} {rt : GoRuntime Body} {W : Type} (h : remote Body W).

Implicit Types (d : ResourceData string) (client : APIClient).

(** [findUserByLogin] returns the first user of the customer's list whose
    login is the one asked for, comparing strings exactly and reading a
    missing login as the empty string; it returns none only if no listed
    user has that login. *)
Theorem findUserByLogin_first_match login w currentUser w1 users w2 :
  h conn_GetCurrentUser w = (Ok currentUser, w1) ->
  h (conn_ListCustomerUsers (ToValue (CustomerID currentUser))) w1 = (Ok users, w2) ->
  exists found,
    run h (findUserByLogin login) w =
      (Ok found, w2,
       [Called conn_GetCurrentUser;
        Called (conn_ListCustomerUsers (ToValue (CustomerID currentUser)))])
    /\ match found with
       | Some u =>
           ToValue (Login u) = login
           /\ exists before after,
                users = before ++ u :: after
                /\ Forall (fun v => ToValue (Login v) <> login) before
       | None => Forall (fun v => ToValue (Login v) <> login) users
       end.
Proof.
  intros H1 H2. rewrite run_findUserByLogin, H1. cbv zeta. rewrite H2.
  eexists. split; [reflexivity |].
  destruct (find _ users) as [u |] eqn:Hfind.
  - apply find_first in Hfind as (l1 & l2 & -> & Hu & Hl1).
    apply bool_decide_eq_true in Hu. split; [done |].
    exists l1, l2. split; [done |].
    eapply Forall_impl; [exact Hl1 |]. intros v Hv. cbn in Hv.
    by apply bool_decide_eq_false in Hv.
  - apply Forall_forall. intros v Hv%list_elem_of_In.
    pose proof (find_none _ _ Hfind v Hv) as Hf. cbn in Hf.
    by apply bool_decide_eq_false in Hf.
Qed.

(** [findInvitationByEmail] returns the first listed invitation whose
    email is the one asked for, with the id, role and status code of that
    entry; it returns none only if no listed invitation has that email. *)
Theorem findInvitationByEmail_first_match client email w invitations w1 t :
  run h (listInvitations client) w = (Ok invitations, w1, t) ->
  exists found,
    run h (findInvitationByEmail client email) w = (Ok found, w1, t)
    /\ match found with
       | Some inv =>
           Email inv = email
           /\ exists entry before after,
                ls_Data invitations = before ++ entry :: after
                /\ inv = toInvitation entry
                /\ Forall (fun e => at_Email (rd_Attributes e) <> email) before
       | None =>
           Forall (fun e => at_Email (rd_Attributes e) <> email) (ls_Data invitations)
       end.
Proof.
  intros H1. rewrite run_findInvitationByEmail, H1.
  eexists. split; [reflexivity |].
  destruct (find _ (ls_Data invitations)) as [e |] eqn:Hfind; cbn.
  - apply find_first in Hfind as (l1 & l2 & -> & He & Hl1).
    apply bool_decide_eq_true in He. split; [done |].
    exists e, l1, l2. repeat split.
    eapply Forall_impl; [exact Hl1 |]. intros v Hv. cbn in Hv.
    by apply bool_decide_eq_false in Hv.
  - apply Forall_forall. intros v Hv%list_elem_of_In.
    pose proof (find_none _ _ Hfind v Hv) as Hf. cbn in Hf.
    by apply bool_decide_eq_false in Hf.
Qed.

(** [getInvitation] answers from the listing: an invitation it returns has
    the id asked for and is a listed entry; when no listed entry has that
    id it fails with an error of its own making, which the not-found test
    of the handlers does not recognise. *)
Theorem getInvitation_from_listing client invitationID w invitations w1 t :
  run h (listInvitations client) w = (Ok invitations, w1, t) ->
  exists r,
    run h (getInvitation client invitationID) w = (r, w1, t)
    /\ match r with
       | Ok inv =>
           ID inv = invitationID
           /\ exists entry, entry ∈ ls_Data invitations /\ inv = toInvitation entry
       | Err err =>
           Forall (fun e => rd_ID e <> invitationID) (ls_Data invitations)
           /\ err = Errorf ("invitation not found: " +:+ invitationID)
           /\ IsNotFound err = false
       end.
Proof.
  intros H1. rewrite run_getInvitation, H1.
  eexists. split; [reflexivity |].
  destruct (find _ (ls_Data invitations)) as [e |] eqn:Hfind; cbn.
  - pose proof (find_some _ _ Hfind) as [Hin He].
    apply bool_decide_eq_true in He. split; [done |].
    exists e. split; [by apply list_elem_of_In | done].
  - repeat split. apply Forall_forall. intros v Hv%list_elem_of_In.
    pose proof (find_none _ _ Hfind v Hv) as Hf. cbn in Hf.
    by apply bool_decide_eq_false in Hf.
Qed.

(** [deleteInvitation] sends one DELETE for the invitation's path.  A
    transport error is returned as it is; an answer counts as success
    exactly when its status is 200, 204 or 404. *)
Theorem deleteInvitation_status client invitationID w r w1 t :
  http_NewRequest "DELETE" (Address client +:+ "/invitations/" +:+ invitationID) = None ->
  run h (deleteInvitation client invitationID) w = (r, w1, t) ->
  exists req answer,
    t = [Called (HTTPClient_Do req)]
    /\ Method req = "DELETE"
    /\ URL req = Address client +:+ "/invitations/" +:+ invitationID
    /\ ReqBody req = None
    /\ h (HTTPClient_Do req) w = (answer, w1)
    /\ match answer with
       | Err err => r = Some err
       | Ok resp =>
           r = None <->
           (HTTPStatusCode resp = 200 \/ HTTPStatusCode resp = 204
            \/ HTTPStatusCode resp = 404)%Z
       end.
Proof.
  intros Hnew. rewrite run_deleteInvitation.
  destruct (run h (doInvitationRequest _ _ _ _) w) as [[r' w'] t'] eqn:E.
  intros [= <- <- <-].
  apply run_doInvitationRequest in E
    as [(_ & _ & err & _ & Herr) | (req & -> & Hm & Hurl & Hb & _ & Hh)];
    [congruence |].
  exists req, r'. repeat split; try done.
  destruct r' as [resp | err]; [| done].
  destruct (Z.eqb_spec (HTTPStatusCode resp) 200);
    destruct (Z.eqb_spec (HTTPStatusCode resp) 204);
    destruct (Z.eqb_spec (HTTPStatusCode resp) 404); cbn;
    split; try done; try tauto; intros [? | [? | ?]]; done.
Qed.

(** [listInvitations] succeeds only on a GET of the invitations path that
    was answered with status 200 and a body that decodes. *)
Theorem listInvitations_status client w invitations w1 t :
  run h (listInvitations client) w = (Ok invitations, w1, t) ->
  exists req resp,
    t = [Called (HTTPClient_Do req)]
    /\ Method req = "GET"
    /\ URL req = Address client +:+ "/invitations"
    /\ ReqBody req = None
    /\ h (HTTPClient_Do req) w = (Ok resp, w1)
    /\ HTTPStatusCode resp = 200%Z
    /\ Decode_listInvitationsResponse (RespBody resp) = Ok invitations.
Proof.
  rewrite run_listInvitations.
  destruct (run h (doInvitationRequest _ _ _ _) w) as [[r' w'] t'] eqn:E.
  intros [= Hr <- <-].
  apply run_doInvitationRequest in E
    as [(_ & _ & err & -> & _) | (req & -> & Hm & Hurl & Hb & _ & Hh)];
    [done |].
  destruct r' as [resp | err]; [| done].
  destruct (Z.eqb_spec (HTTPStatusCode resp) 200); [| done].
  exists req, resp. done.
Qed.

(** [createInvitation] succeeds only after one POST to the invitations
    path, carrying the marshalled request for that email, role and
    customer, that was answered with status 200 or 201 and a body that
    decodes to the invitation returned. *)
Theorem createInvitation_status client email role customerID w invitation w1 t :
  run h (createInvitation client email role customerID) w = (Ok invitation, w1, t) ->
  exists body req resp,
    json_Marshal
      {| rq_Data :=
           {| id_Type := "invitation";
              id_Attributes :=
                {| ia_Email := email; ia_LimitServices := false;
                   ia_Role := role; ia_Roles := [] |};
              id_Relationships :=
                {| Customer :=
                     {| cr_Data := {| cd_ID := customerID; cd_Type := "customer" |} |} |}
           |} |} = Ok body
    /\ t = [Called (HTTPClient_Do req)]
    /\ Method req = "POST"
    /\ URL req = Address client +:+ "/invitations"
    /\ ReqBody req = Some body
    /\ h (HTTPClient_Do req) w = (Ok resp, w1)
    /\ (HTTPStatusCode resp = 200 \/ HTTPStatusCode resp = 201)%Z
    /\ Decode_invitationResponse (RespBody resp) = Ok invitation.
Proof.
  rewrite run_createInvitation.
  destruct (json_Marshal _) as [body | err]; [| done].
  destruct (run h (doInvitationRequest _ _ _ _) w) as [[r' w'] t'] eqn:E.
  intros [= Hr <- <-].
  apply run_doInvitationRequest in E
    as [(_ & _ & err & -> & _) | (req & -> & Hm & Hurl & Hb & _ & Hh)];
    [done |].
  destruct r' as [resp | err]; [| done].
  exists body, req, resp. repeat split; try done.
  destruct (Z.eqb_spec (HTTPStatusCode resp) 200); [by left |].
  destruct (Z.eqb_spec (HTTPStatusCode resp) 201); [by right | done].
  destruct (Z.eqb_spec (HTTPStatusCode resp) 200); [done |].
  destruct (Z.eqb_spec (HTTPStatusCode resp) 201); done.
Qed.

(** When the request cannot be built, nothing is sent and the error of
    building it is the result. *)
Lemma doInvitationRequest_not_sent client method path body w err :
  http_NewRequest method (Address client +:+ path) = Some err ->
  run h (doInvitationRequest client method path body) w = (Err err, w, []).
Proof.
  intros Hnew. unfold doInvitationRequest; cbv zeta. by rewrite Hnew.
Qed.

(** *** Footprints *)

Lemma calls_only_bind {A B} (P : call Body -> Prop) (p : prog Body A)
    (f : A -> prog Body B) :
  calls_only P p -> (forall a, calls_only P (f a)) -> calls_only P (bind p f).
Proof.
  intros Hp Hf. induction p as [a | c k IH | format args k IH]; cbn in *.
  - apply Hf.
  - destruct Hp as [Hc Hk]. split; [done |]. intros x. by apply IH.
  - by apply IH.
Qed.

Lemma calls_only_impl {A} (P Q : call Body -> Prop) (p : prog Body A) :
  (forall c, P c -> Q c) -> calls_only P p -> calls_only Q p.
Proof.
  intros HPQ. induction p as [a | c k IH | format args k IH]; cbn.
  - done.
  - intros [Hc Hk]. split; [by apply HPQ |]. intros x. by apply IH.
  - apply IH.
Qed.

Lemma run_calls_only {A} (P : call Body -> Prop) (p : prog Body A) w :
  calls_only P p -> Forall (called_only P) (run h p w).2.
Proof.
  revert w. induction p as [a | c k IH | format args k IH]; intros w; cbn [run].
  - by constructor.
  - intros [Hc Hk]. destruct (h c w) as [x w1].
    specialize (IH x w1 (Hk x)).
    destruct (run h (k x) w1) as [[a w2] t]. by constructor.
  - intros Hk. specialize (IH w Hk).
    destruct (run h k w) as [[a w2] t]. by constructor.
Qed.

(** The one request of [doInvitationRequest]. *)
Lemma doInvitationRequest_calls client method path body :
  calls_only
    (fun c => well_formed client c
              /\ exists req, c = HTTPClient_Do req /\ Method req = method)
    (doInvitationRequest client method path body).
Proof.
  unfold doInvitationRequest; cbv zeta.
  destruct (http_NewRequest _ _); cbn; [done |].
  repeat split; eauto.
Qed.

Lemma listInvitations_calls client :
  calls_only (fun c => well_formed client c /\ is_read c = true)
             (listInvitations client).
Proof.
  unfold listInvitations. apply calls_only_bind.
  - eapply calls_only_impl; [| apply doInvitationRequest_calls].
    intros c [Hwf (req & -> & Hm)]. split; [done |]. cbn.
    by rewrite bool_decide_eq_true_2.
  - intros [resp | err]; [| done]. by destruct (negb _).
Qed.

Lemma getInvitation_calls client invitationID :
  calls_only (fun c => well_formed client c /\ is_read c = true)
             (getInvitation client invitationID).
Proof.
  unfold getInvitation. apply calls_only_bind; [apply listInvitations_calls |].
  intros [l | err]; [| done]. by destruct (find _ _).
Qed.

Lemma findInvitationByEmail_calls client email :
  calls_only (fun c => well_formed client c /\ is_read c = true)
             (findInvitationByEmail client email).
Proof.
  unfold findInvitationByEmail. apply calls_only_bind; [apply listInvitations_calls |].
  intros [l | err]; [| done]. by destruct (find _ _).
Qed.

Lemma deleteInvitation_calls client invitationID :
  calls_only
    (fun c => well_formed client c
              /\ exists req, c = HTTPClient_Do req /\ Method req = "DELETE")
    (deleteInvitation client invitationID).
Proof.
  unfold deleteInvitation. apply calls_only_bind; [apply doInvitationRequest_calls |].
  intros [resp | err]; [| done]. by destruct (_ && _).
Qed.

Lemma createInvitation_calls client email role customerID :
  calls_only
    (fun c => well_formed client c
              /\ exists req, c = HTTPClient_Do req /\ Method req = "POST")
    (createInvitation client email role customerID).
Proof.
  unfold createInvitation; cbv zeta.
  destruct (json_Marshal _) as [body | err]; [| done].
  apply calls_only_bind; [apply doInvitationRequest_calls |].
  intros [resp | err]; [| done]. by destruct (_ && _).
Qed.

Lemma findUserByLogin_calls client login :
  calls_only (fun c : call Body => well_formed client c /\ is_read c = true)
             (findUserByLogin login).
Proof.
  unfold findUserByLogin; cbn. repeat split.
  intros [cu | err]; cbn; [| done]. repeat split. by intros [users | err].
Qed.

Lemma resourceUserRead_calls client d :
  calls_only (fun c => well_formed client c /\ is_read c = true)
             (resourceUserRead client d).
Proof.
  unfold resourceUserRead; cbv zeta; cbn [calls_only].
  destruct (bool_decide (d_Get "user_id" d <> "")); cbn [calls_only].
  { repeat split. intros [u | err]; [done |]. by destruct (IsNotFound err). }
  destruct (bool_decide (d_Get "invitation_id" d <> "")); cbn [calls_only].
  - apply calls_only_bind; [apply findUserByLogin_calls |].
    intros [[u |] | err]; try done.
    apply calls_only_bind; [apply getInvitation_calls |].
    by intros [inv | err].
  - repeat split. intros [u | err]; [done |]. by destruct (IsNotFound err).
Qed.

Lemma handler_calls op client d :
  calls_only (fun c => well_formed client c /\ may_call op c)
             (resourceUser op client d).
Proof.
  destruct op; cbn [resourceUser may_call].
  - unfold resourceUserCreate; cbv zeta. apply calls_only_bind.
    { eapply calls_only_impl; [| apply (findUserByLogin_calls client)].
      intros c [? ?]. auto. }
    intros [[u |] | err]; [| | done].
    { eapply calls_only_impl; [| apply resourceUserRead_calls].
      intros c [? ?]. auto. }
    apply calls_only_bind.
    { eapply calls_only_impl; [| apply findInvitationByEmail_calls].
      intros c [? ?]. auto. }
    intros [[inv |] | err]; try done. cbn [calls_only]. repeat split; [by left |].
    intros [cu | err]; [| done]. apply calls_only_bind.
    + eapply calls_only_impl; [| apply createInvitation_calls].
      intros c [Hwf (req & -> & Hm)]. split; [done |]. right. eauto.
    + by intros [i | err].
  - apply resourceUserRead_calls.
  - unfold resourceUserUpdate; cbv zeta.
    destruct (bool_decide (d_Get "user_id" d = "")).
    { by destruct (HasChanges _ d). }
    assert (calls_only
              (fun c => well_formed client c
                        /\ (is_read c = true
                            \/ exists userID name role,
                                 c = conn_UpdateUser userID name role))
              (resourceUserRead client d)) as Hread.
    { eapply calls_only_impl; [| apply resourceUserRead_calls].
      intros c [? ?]. auto. }
    destruct (HasChanges _ d); [| exact Hread].
    cbn [calls_only]. repeat split; [right; eauto |].
    by intros [u | err].
  - unfold resourceUserDelete; cbv zeta.
    destruct (bool_decide (d_Get "user_id" d <> "")); cbn [calls_only].
    { repeat split; [left; eauto |].
      intros [err |]; [| done]. by destruct (IsNotFound err). }
    destruct (bool_decide (d_Get "invitation_id" d <> "")); [| done].
    apply calls_only_bind.
    + eapply calls_only_impl; [| apply deleteInvitation_calls].
      intros c [Hwf (req & -> & Hm)]. split; [done |]. right. eauto.
    + by intros [err |].
Qed.

(** Whatever the remote answers, a create only asks or POSTs, a read only
    asks, an update only asks or calls [UpdateUser], and a delete only
    calls [DeleteUser] or sends a DELETE. *)
Theorem handler_footprint op client d w :
  Forall (called_only (may_call op)) (run h (resourceUser op client d) w).2.
Proof.
  apply run_calls_only.
  eapply calls_only_impl; [| apply handler_calls]. by intros c [_ ?].
Qed.

(** Every request a handler hands to the HTTP client itself, which it does
    only in [doInvitationRequest] for the invitation endpoint, goes to a
    path under the client's address and carries the client's key in
    [Fastly-Key] and the JSON:API media type in [Accept] and
    [Content-Type].  (What the Fastly client sends for [GetUser],
    [UpdateUser] and the like is that library's and is not stated here.) *)
Theorem handler_requests_well_formed op client d w req :
  Called (HTTPClient_Do req) ∈ (run h (resourceUser op client d) w).2 ->
  Header req !! "Fastly-Key" = Some (apiKey client)
  /\ Header req !! "Accept" = Some "application/vnd.api+json"
  /\ Header req !! "Content-Type" = Some "application/vnd.api+json"
  /\ exists path, URL req = Address client +:+ path.
Proof.
  intros Hin.
  assert (Forall (called_only (well_formed client))
                 (run h (resourceUser op client d) w).2) as Hall.
  { apply run_calls_only.
    eapply calls_only_impl; [| apply handler_calls]. by intros c [? _]. }
  rewrite Forall_forall in Hall. exact (Hall _ Hin).
Qed.

(** *** Update, delete and read *)

(** An update of a bag with a user id and a changed name or role calls
    [UpdateUser] with the bag's name and role.  If that fails the error
    is reported, the bag is untouched and nothing else is called; if it
    succeeds the outcome is that of a read on the same bag. *)
Theorem update_active_changed client d w r w1 :
  d_Get "user_id" d <> "" ->
  HasChanges ["name"; "role"] d = true ->
  h (conn_UpdateUser (d_Get "user_id" d)
       (Some (d_Get "name" d)) (Some (d_Get "role" d))) w = (r, w1) ->
  run h (resourceUserUpdate client d) w =
  match r with
  | Err err =>
      (d, [err], w1,
       [Called (conn_UpdateUser (d_Get "user_id" d)
                  (Some (d_Get "name" d)) (Some (d_Get "role" d)))])
  | Ok _ =>
      let '(out, w2, t) := run h (resourceUserRead client d) w1 in
      (out, w2,
       Called (conn_UpdateUser (d_Get "user_id" d)
                 (Some (d_Get "name" d)) (Some (d_Get "role" d))) :: t)
  end.
Proof.
  intros Hu Hc Hr. unfold resourceUserUpdate; cbv zeta.
  rewrite bool_decide_eq_false_2, Hc by done. cbn [run]. rewrite Hr.
  destruct r as [u | err]; [| done].
  by destruct (run h (resourceUserRead client d) w1) as [[out w2] t].
Qed.

(** An update that changes neither name nor role never calls
    [UpdateUser]: without user id it does nothing and succeeds, with a
    user id it is a read. *)
Theorem update_unchanged client d w :
  HasChanges ["name"; "role"] d = false ->
  (d_Get "user_id" d = "" ->
   run h (resourceUserUpdate client d) w = (d, [], w, []))
  /\ (d_Get "user_id" d <> "" ->
      run h (resourceUserUpdate client d) w = run h (resourceUserRead client d) w).
Proof.
  intros Hc. unfold resourceUserUpdate; cbv zeta. rewrite Hc. split; intros Hu.
  - by rewrite bool_decide_eq_true_2.
  - by rewrite bool_decide_eq_false_2.
Qed.

(** A delete leaves the bag as it is, whatever the remote answers.  With
    a user id its only call is [DeleteUser] for that id: nothing is sent
    to the invitation endpoint, even when an invitation id is set as
    well.  With neither id it calls nothing and succeeds. *)
Theorem delete_bag_and_calls client d w :
  (run h (resourceUserDelete client d) w).1.1.1 = d
  /\ (d_Get "user_id" d <> "" ->
      (run h (resourceUserDelete client d) w).2
      = [Called (conn_DeleteUser (d_Get "user_id" d))])
  /\ (d_Get "user_id" d = "" -> d_Get "invitation_id" d = "" ->
      run h (resourceUserDelete client d) w = (d, [], w, [])).
Proof.
  split; [apply delete_keeps_bag |]. unfold resourceUserDelete; cbv zeta. split.
  - intros Hu. rewrite bool_decide_eq_true_2 by done. cbn [run].
    destruct (h (conn_DeleteUser _) w) as [[err |] w1]; cbn [run]; [| done].
    by destruct (IsNotFound err).
  - intros -> ->. by rewrite !bool_decide_eq_false_2 by (intros H; by apply H).
Qed.

(** A read of a bag with an invitation id, when nobody has the login:
    it reports no error either way.  If the invitation is confirmed the
    bag is unchanged; if confirming fails, for whatever reason, the
    resource id is cleared and the attributes stay. *)
Theorem read_pending_invitation client d w w1 t1 r2 w2 t2 :
  d_Get "user_id" d = "" ->
  d_Get "invitation_id" d <> "" ->
  run h (findUserByLogin (d_Get "login" d)) w = (Ok None, w1, t1) ->
  run h (getInvitation client (d_Get "invitation_id" d)) w1 = (r2, w2, t2) ->
  exists d' rest,
    run h (resourceUserRead client d) w = (d', [], w2, refreshing d :: t1 ++ t2 ++ rest)
    /\ match r2 with
       | Ok _ => d' = d
       | Err _ => Id d' = "" /\ attrs d' = attrs d
       end.
Proof.
  intros Hu Hi H1 H2. rewrite run_read_pending, H1, H2 by done.
  destruct r2 as [inv | err]; do 2 eexists; (split; [reflexivity | done]).
Qed.

(** A failure of a lookup or of the creation makes the create fail with
    that error, wrapped in a message that names the step, and leaves the
    bag as it was. *)
Theorem create_failures client d w :
  (forall err w1 t1,
     run h (findUserByLogin (d_Get "login" d)) w = (Err err, w1, t1) ->
     run h (resourceUserCreate client d) w
     = (d, [Wrap "error checking for existing user: " err], w1, t1))
  /\ (forall w1 t1 err w2 t2,
        run h (findUserByLogin (d_Get "login" d)) w = (Ok None, w1, t1) ->
        run h (findInvitationByEmail client (d_Get "login" d)) w1 = (Err err, w2, t2) ->
        run h (resourceUserCreate client d) w
        = (d, [Wrap "error checking for existing invitation: " err], w2, t1 ++ t2))
  /\ (forall w1 t1 w2 t2 err w3,
        run h (findUserByLogin (d_Get "login" d)) w = (Ok None, w1, t1) ->
        run h (findInvitationByEmail client (d_Get "login" d)) w1 = (Ok None, w2, t2) ->
        h conn_GetCurrentUser w2 = (Err err, w3) ->
        run h (resourceUserCreate client d) w
        = (d, [Wrap "error getting current user: " err], w3,
           t1 ++ t2 ++ [Called conn_GetCurrentUser]))
  /\ (forall w1 t1 w2 t2 currentUser w3 err w4 t4,
        run h (findUserByLogin (d_Get "login" d)) w = (Ok None, w1, t1) ->
        run h (findInvitationByEmail client (d_Get "login" d)) w1 = (Ok None, w2, t2) ->
        h conn_GetCurrentUser w2 = (Ok currentUser, w3) ->
        run h (createInvitation client (d_Get "login" d) (d_Get "role" d)
                 (ToValue (CustomerID currentUser))) w3 = (Err err, w4, t4) ->
        run h (resourceUserCreate client d) w
        = (d, [Wrap "error creating invitation: " err], w4,
           t1 ++ t2 ++ Called conn_GetCurrentUser :: t4)).
Proof.
  rewrite run_create. repeat split.
  - by intros err w1 t1 ->.
  - by intros w1 t1 err w2 t2 -> ->.
  - by intros w1 t1 w2 t2 err w3 -> -> ->.
  - by intros w1 t1 w2 t2 cu w3 err w4 t4 -> -> -> ->.
Qed.

(** *** The resource id *)

Lemma read_tracks client d w :
  tracks d -> tracks (run h (resourceUserRead client d) w).1.1.1.
Proof.
  intros Ht. unfold tracks in *.
  destruct (read_identity h client d w) as [(E1 & E2 & [E3 | E3]) | (_ & _ & E & _)].
  - rewrite E1, E2, E3. exact Ht.
  - by left.
  - right. by left.
Qed.

(** What a create leaves in the bag, when it reports no error. *)
Lemma create_bag client d w :
  let '(d', diags, _, _) := run h (resourceUserCreate client d) w in
  (d' = d /\ diags <> [])
  \/ (exists userID w1,
        d' = (run h (resourceUserRead client (as_user userID d)) w1).1.1.1)
  \/ (exists invitationID, d' = as_invitation invitationID d).
Proof.
  rewrite run_create.
  destruct (run h (findUserByLogin _) w) as [[[[u |] | err] w1] t1];
    [| | by left].
  - destruct (run h (resourceUserRead _ _) w1) as [[[d' diags] w2] t2] eqn:E.
    right. left. exists (ToValue (UserID u)), w1. by rewrite E.
  - destruct (run h (findInvitationByEmail _ _) w1) as [[[[inv |] | err] w2] t2];
      [| | by left].
    + right. right. eauto.
    + destruct (h conn_GetCurrentUser w2) as [[cu | err] w3]; [| by left].
      destruct (run h (createInvitation _ _ _ _) w3) as [[[i | err] w4] t4];
        [| by left].
      right. right. eauto.
Qed.

Lemma as_user_tracks userID d : tracks (as_user userID d).
Proof.
  destruct (as_user_fields userID d) as (HI & HU & _).
  right. left. by rewrite HI, HU.
Qed.

Lemma as_invitation_tracks invitationID d : tracks (as_invitation invitationID d).
Proof.
  destruct (as_invitation_fields invitationID d) as (HI & HV & HU).
  right. right. by rewrite HI, HV, HU.
Qed.

(** The resource id follows the identity: if it is empty, or equal to the
    user id, or (without user id) equal to the invitation id before a
    handler runs, it is so after it; and a create that reports no error
    leaves it so whatever the bag was. *)
Theorem resource_id_tracks_identity op client d w :
  let '(d', diags, _, _) := run h (resourceUser op client d) w in
  (tracks d -> tracks d')
  /\ (op = Create -> diags = [] -> tracks d').
Proof.
  destruct op; cbn [resourceUser].
  - pose proof (create_bag client d w) as Hbag.
    destruct (run h (resourceUserCreate client d) w) as [[[d' diags] w'] t].
    assert (diags = [] \/ tracks d -> tracks d') as Hgoal.
    { destruct Hbag as [[-> Hd] | [(userID & w1 & ->) | (invitationID & ->)]].
      - intros [? | ?]; done.
      - intros _. apply read_tracks, as_user_tracks.
      - intros _. apply as_invitation_tracks. }
    split; auto.
  - pose proof (read_tracks client d w) as Hread.
    destruct (run h (resourceUserRead client d) w) as [[[d' diags] w'] t].
    split; [exact Hread | done].
  - pose proof (update_bag h client d w) as Hbag.
    destruct (run h (resourceUserUpdate client d) w) as [[[d' diags] w'] t].
    cbn [fst] in Hbag. split; [| done]. intros Ht.
    destruct Hbag as [-> | [w1 ->]]; [done | by apply read_tracks].
  - pose proof (delete_keeps_bag h client d w) as Hbag.
    destruct (run h (resourceUserDelete client d) w) as [[[d' diags] w'] t].
    cbn [fst] in Hbag. subst d'. split; done.
Qed.

(** What a create recorded is what a delete removes: after a create that
    reported no error and left a resource id, a delete of that bag, at any
    later state of the remote, either calls [DeleteUser] for the resource
    id and nothing else, or runs [deleteInvitation] for the resource id. *)
Theorem delete_after_create client d w d1 w1 t1 w' :
  run h (resourceUserCreate client d) w = (d1, [], w1, t1) ->
  Id d1 <> "" ->
  (d_Get "user_id" d1 = Id d1
   /\ (run h (resourceUserDelete client d1) w').2 = [Called (conn_DeleteUser (Id d1))])
  \/ (d_Get "user_id" d1 = ""
      /\ exists rest,
           (run h (resourceUserDelete client d1) w').2
           = (run h (deleteInvitation client (Id d1)) w').2 ++ rest).
Proof.
  intros Hrun Hid.
  pose proof (Hbag := create_bag client d w).
  rewrite Hrun in Hbag.
  assert (tracks d1) as Ht.
  { destruct Hbag
      as [[_ Hd] | [(userID & w2 & ->) | (invitationID & ->)]]; [done | |].
    - apply read_tracks, as_user_tracks.
    - apply as_invitation_tracks. }
  destruct Ht as [? | [HU | [HU HV]]]; [done | left | right].
  - split; [done |]. unfold resourceUserDelete; cbv zeta.
    rewrite bool_decide_eq_true_2 by congruence. cbn [run]. rewrite HU.
    destruct (h (conn_DeleteUser _) w') as [[err |] w2]; cbn [run]; [| done].
    by destruct (IsNotFound err).
  - split; [done |]. unfold resourceUserDelete; cbv zeta.
    rewrite HU, HV. rewrite bool_decide_eq_false_2 by (intros H; by apply H).
    rewrite bool_decide_eq_true_2 by done. rewrite run_bind.
    destruct (run h (deleteInvitation _ _) w') as [[[err |] w2] t2]; cbn; eauto.
Qed.

(** *** The data sources *)

Lemma lookup_map {A B} (f : A -> B) (l : list A) (i : nat) :
  map f l !! i = f <$> l !! i.
Proof.
  revert i. induction l as [| x l IH]; intros [| i]; cbn; try done.
Qed.

Lemma user_row_lookup (u : User) :
  user_row u !! "id" = Some (SString (ToValue (UserID u)))
  /\ user_row u !! "login" = Some (SString (ToValue (Login u)))
  /\ user_row u !! "name" = Some (SString (ToValue (Name u)))
  /\ user_row u !! "role" = Some (SString (ToValue (Role u)))
  /\ user_row u !! "customer_id" = Some (SString (ToValue (CustomerID u)))
  /\ user_row u !! "locked" = Some (SBool (ToValue_bool (Locked u)))
  /\ user_row u !! "two_factor_auth_enabled"
     = Some (SBool (ToValue_bool (TwoFactorAuthEnabled u)))
  /\ user_row u !! "limit_services" = Some (SBool (ToValue_bool (LimitServices u)))
  /\ user_row u !! "created_at" = (fun t => SString (time_String t)) <$> CreatedAt u
  /\ user_row u !! "updated_at" = (fun t => SString (time_String t)) <$> UpdatedAt u.
Proof.
  unfold user_row; cbv zeta.
  destruct (CreatedAt u), (UpdatedAt u); cbn [fmap option_fmap option_map];
    repeat split;
    repeat first [ rewrite lookup_insert_eq | rewrite lookup_insert_ne by done ];
    done.
Qed.

(** What is read back has the keys of the schema and nothing else. *)
Lemma dom_read_back elem (row : gmap string scalar) :
  dom (read_back elem row) = list_to_set elem.*1.
Proof.
  unfold read_back. induction elem as [| [k t] elem IH]; cbn.
  - apply dom_empty_L.
  - by rewrite dom_insert_L, IH.
Qed.

Lemma read_back_users_lookup (row : gmap string scalar) key t :
  (key, t) ∈ users_elem ->
  read_back users_elem row !! key = Some (default (zero t) (row !! key)).
Proof.
  unfold users_elem, read_back. cbn [foldr fst snd].
  rewrite !elem_of_cons, elem_of_nil.
  intros H; repeat (destruct H as [[= -> ->] | H]);
    [repeat first [ rewrite lookup_insert_eq | rewrite lookup_insert_ne by done ];
     done .. | done].
Qed.

(** The users data source asks for the current user and for the users of
    its customer.  If both answer, the bag gets the customer id as its id
    and under [users] one row per listed user, in the order of the list.
    A row has exactly the ten keys of the element's schema; a field the
    user lacks shows as the empty string or as false, and [created_at]
    and [updated_at] hold the time's text, or the empty string for a user
    without that time.  If either call fails the error is reported and
    the bag is untouched. *)
Theorem users_data_source (d : ResourceData (list (gmap string scalar)))
    w r w1 :
  h conn_GetCurrentUser w = (r, w1) ->
  match r with
  | Err err => run h (dataSourceFastlyUsersRead d) w
               = (d, [err], w1, [Called conn_GetCurrentUser])
  | Ok currentUser =>
      let customerID := ToValue (CustomerID currentUser) in
      forall r2 w2,
        h (conn_ListCustomerUsers customerID) w1 = (r2, w2) ->
        match r2 with
        | Err err =>
            run h (dataSourceFastlyUsersRead d) w
            = (d, [err], w2,
               [Called conn_GetCurrentUser; Called (conn_ListCustomerUsers customerID)])
        | Ok users =>
            exists (d' : ResourceData (list (gmap string scalar))) rows,
              run h (dataSourceFastlyUsersRead d) w
              = (d', [], w2,
                 [Called conn_GetCurrentUser; Called (conn_ListCustomerUsers customerID)])
              /\ Id d' = customerID
              /\ attrs d' !! "users" = Some rows
              /\ length rows = length users
              /\ forall i u, users !! i = Some u ->
                   exists row, rows !! i = Some row
                     /\ dom row = list_to_set users_elem.*1
                     /\ row !! "id" = Some (SString (ToValue (UserID u)))
                     /\ row !! "login" = Some (SString (ToValue (Login u)))
                     /\ row !! "name" = Some (SString (ToValue (Name u)))
                     /\ row !! "role" = Some (SString (ToValue (Role u)))
                     /\ row !! "customer_id" = Some (SString (ToValue (CustomerID u)))
                     /\ row !! "locked" = Some (SBool (ToValue_bool (Locked u)))
                     /\ row !! "two_factor_auth_enabled"
                        = Some (SBool (ToValue_bool (TwoFactorAuthEnabled u)))
                     /\ row !! "limit_services"
                        = Some (SBool (ToValue_bool (LimitServices u)))
                     /\ row !! "created_at"
                        = Some (SString (from_option time_String "" (CreatedAt u)))
                     /\ row !! "updated_at"
                        = Some (SString (from_option time_String "" (UpdatedAt u)))
        end
  end.
Proof.
  intros Hr. unfold dataSourceFastlyUsersRead; cbn [run]. rewrite Hr.
  destruct r as [cu | err]; [| done]. cbv zeta. intros r2 w2 Hr2.
  cbn [run]. rewrite Hr2. destruct r2 as [users | err]; [| done]. cbn [run].
  eexists _, (map (read_back users_elem) (map user_row users)).
  split; [reflexivity |].
  split; [done |]. split; [apply lookup_insert_eq |].
  split; [by rewrite !length_map |].
  intros i u Hi. exists (read_back users_elem (user_row u)).
  rewrite !lookup_map, Hi. split; [done |]. split; [apply dom_read_back |].
  destruct (user_row_lookup u)
    as (E1 & E2 & E3 & E4 & E5 & E6 & E7 & E8 & E9 & E10).
  repeat split;
    (erewrite read_back_users_lookup;
       [| unfold users_elem; rewrite !elem_of_cons; eauto 12]);
    rewrite ?E1, ?E2, ?E3, ?E4, ?E5, ?E6, ?E7, ?E8, ?E9, ?E10; try done.
  - by destruct (CreatedAt u).
  - by destruct (UpdatedAt u).
Qed.

(** The invitations data source asks for the current user and lists the
    invitations.  If both work, the bag gets the customer id as its id and
    under [invitations] one row per listed invitation, in the order of the
    list, with its id, email, role and status code.  If either fails the
    error is reported and the bag is untouched. *)
Theorem invitations_data_source client
    (d : ResourceData (list (gmap string scalar))) w r w1 :
  h conn_GetCurrentUser w = (r, w1) ->
  match r with
  | Err err => run h (dataSourceFastlyInvitationsRead client d) w
               = (d, [err], w1, [Called conn_GetCurrentUser])
  | Ok currentUser =>
      forall r2 w2 t2,
        run h (listInvitations client) w1 = (r2, w2, t2) ->
        match r2 with
        | Err err =>
            run h (dataSourceFastlyInvitationsRead client d) w
            = (d, [err], w2, Called conn_GetCurrentUser :: t2)
        | Ok invitations =>
            exists (d' : ResourceData (list (gmap string scalar))) rows,
              run h (dataSourceFastlyInvitationsRead client d) w
              = (d', [], w2, Called conn_GetCurrentUser :: t2)
              /\ Id d' = ToValue (CustomerID currentUser)
              /\ attrs d' !! "invitations" = Some rows
              /\ length rows = length (ls_Data invitations)
              /\ forall i inv, ls_Data invitations !! i = Some inv ->
                   exists row, rows !! i = Some row
                     /\ row !! "id" = Some (SString (rd_ID inv))
                     /\ row !! "email" = Some (SString (at_Email (rd_Attributes inv)))
                     /\ row !! "role" = Some (SString (at_Role (rd_Attributes inv)))
                     /\ row !! "status_code"
                        = Some (SInt (at_StatusCode (rd_Attributes inv)))
        end
  end.
Proof.
  intros Hr. unfold dataSourceFastlyInvitationsRead; cbn [run]. rewrite Hr.
  destruct r as [cu | err]; [| done]. cbv zeta. intros r2 w2 t2 Hr2.
  rewrite (run_bind_eq h _ _ _ _ _ _ Hr2).
  destruct r2 as [invitations | err]; cbn [run]; [| by rewrite app_nil_r].
  rewrite app_nil_r.
  eexists _, (map invitation_row (ls_Data invitations)). split; [reflexivity |].
  split; [done |]. split; [apply lookup_insert_eq |].
  split; [apply length_map |].
  intros i inv Hi. exists (invitation_row inv). rewrite lookup_map, Hi.
  split; [done |]. unfold invitation_row. repeat split;
    repeat first [ rewrite lookup_insert_eq | rewrite lookup_insert_ne by done ];
    done.
Qed.

End Helpers.

(** ** The in-memory account as a remote *)

Module AccountFacts.

Import Account.

Lemma serve_read_only : read_only serve.
Proof.
  intros c w Hc. destruct c; try done; cbn in *.
  unfold http. destruct (outage w); [done |].
  apply bool_decide_eq_true in Hc. by rewrite bool_decide_eq_true_2.
Qed.

Lemma run_listInvitations_up w :
  outage w = false ->
  exists t,
    run serve (listInvitations client) w = (Ok {| ls_Data := invitations w |}, w, t).
Proof.
  intros Hup. rewrite run_listInvitations.
  unfold doInvitationRequest; cbn. unfold http. rewrite Hup. cbn. eauto.
Qed.

Lemma run_listInvitations_down w :
  outage w = true ->
  exists t,
    run serve (listInvitations client) w
    = (Err (Errorf "failed to list invitations: 500 Internal Server Error - unavailable"),
       w, t).
Proof.
  intros Hdown. rewrite run_listInvitations.
  unfold doInvitationRequest; cbn. unfold http. rewrite Hdown. cbn. eauto.
Qed.

Lemma serve_lists_created : lists_created serve client.
Proof.
  intros email role customerID w invitation w1 t Hcreate.
  rewrite run_createInvitation in Hcreate.
  unfold doInvitationRequest in Hcreate; cbn in Hcreate.
  unfold http in Hcreate.
  destruct (outage w) eqn:Hup; [done |]. cbn in Hcreate.
  destruct (fresh w) as [| id ids]; [done |]. cbn in Hcreate.
  injection Hcreate as <- <- <-.
  split; [done |]. split; [done |].
  intros listed Hl Hnone.
  destruct (run_listInvitations_up w Hup) as [t0 E0]. rewrite E0 in Hl.
  cbn [fst snd] in Hl. injection Hl as <-. cbn [ls_Data] in Hnone.
  edestruct (run_listInvitations_up) as [t1 E1]; [| rewrite E1]; [done |].
  eexists _, (invitations w), _, []. repeat split; done.
Qed.

Lemma folding_read_only : read_only folding.
Proof.
  intros c w Hc. destruct c; try done; cbn in *.
  unfold http. destruct (outage w); [done |].
  apply bool_decide_eq_true in Hc.
  assert (Method (fold_request req) = "GET") as ->.
  { unfold fold_request. by destruct (ReqBody req) as [[] |]. }
  done.
Qed.

End AccountFacts.

(** ** Scenarios *)

Module Scenarios.

Import Account AccountFacts.

Ltac none_matches :=
  repeat (apply List.Forall_cons; [by vm_compute |]); apply List.Forall_nil.

(** Nobody is known under the login: the invitation is created.  The
    user is the second of the list: it is adopted and fetched.  The
    invitation is the second of the list, after one for another address:
    it is the one adopted. *)
Lemma C1_scenarios :
  (exists d' w' t,
     run serve (resourceUserCreate client planned) nobody = (d', [], w', t)
     /\ Id d' = "inv-1" /\ d_Get "invitation_id" d' = "inv-1"
     /\ d_Get "user_id" d' = "" /\ existsb is_post t = true)
  /\ (exists d' t,
        run serve (resourceUserCreate client planned) accepted
          = (d', [], accepted, t)
        /\ existsb is_http t = false
        /\ Id d' = "u-1" /\ d_Get "user_id" d' = "u-1"
        /\ d_Get "invitation_id" d' = "")
  /\ (exists d' t,
        run serve (resourceUserCreate client planned) invited_among
          = (d', [], invited_among, t)
        /\ Id d' = "inv-7" /\ d_Get "invitation_id" d' = "inv-7"
        /\ d_Get "user_id" d' = "" /\ existsb is_post t = false).
Proof.
  destruct (C1_create_resolution serve client planned nobody) as (_ & _ & _ & H4 & _).
  destruct (C1_create_resolution serve client planned accepted) as (_ & H2 & _).
  destruct (C1_create_resolution serve client planned invited_among)
    as (_ & _ & H3 & _).
  split; [| split].
  - edestruct H4 as (d' & t & Hrun & HI & HV & HU & Hpost);
      [reflexivity | reflexivity | none_matches | reflexivity | none_matches
      | reflexivity | reflexivity |].
    exists d'. eexists. exists t.
    split; [exact Hrun |]. split; [exact HI |]. split; [exact HV |].
    split; [exact HU | exact Hpost].
  - edestruct H2 with (before := [admin]) (u := alice) (after := @nil User)
                     (r := @Ok User alice)
      as (d' & diags & t & Hrun & Hno & HU & HV & -> & HI & _);
      [reflexivity | reflexivity | none_matches | reflexivity | reflexivity |].
    exists d', t.
    split; [exact Hrun |]. split; [exact Hno |]. split; [exact HI |].
    split; [exact HU | exact HV].
  - edestruct H3 with (before := [invitation "inv-5" "b@x.com" "user"])
                     (entry := invitation "inv-7" "a@x.com" "engineer")
                     (after := @nil invitationResponseData)
      as (d' & t & Hrun & HI & HV & HU & Hno);
      [reflexivity | reflexivity | none_matches | reflexivity | reflexivity
      | none_matches | reflexivity |].
    exists d', t.
    split; [exact Hrun |]. split; [exact HI |]. split; [exact HV |].
    split; [exact HU | exact Hno].
Defined.

(** C1, as it was worded, fails where the user that the list showed is
    gone when it is fetched: the lookup finds the user, and the create
    ends without error and with the resource id cleared. *)
Lemma C1_adopted_user_vanished :
  (run vanished (findUserByLogin "a@x.com") accepted).1.1 = Ok (Some alice)
  /\ exists d' t,
       run vanished (resourceUserCreate client planned) accepted
         = (d', [], accepted, t)
       /\ d_Get "user_id" d' = "u-1"
       /\ Id d' = ""
       /\ Id d' <> ToValue (UserID alice).
Proof.
  split; [reflexivity |]. do 2 eexists. split; [reflexivity |].
  repeat split. by vm_compute.
Qed.

(** C9, as it was worded, fails against a remote whose state is fixed
    while it is only asked but which keeps addresses in lower case: the
    second create does not find the invitation of the first under the
    login as written, and invites again. *)
Lemma C9_folded_address_invited_twice :
  read_only folding
  /\ exists d1 w1 t1 d2 w2 t2,
       run folding (resourceUserCreate client shouting) nobody = (d1, [], w1, t1)
       /\ run folding (resourceUserCreate client shouting) w1 = (d2, [], w2, t2)
       /\ Id d1 = "inv-1" /\ Id d2 = "inv-2"
       /\ Id d2 <> Id d1
       /\ existsb is_post t2 = true
       /\ at_Email <$> (rd_Attributes <$> invitations w2) = ["a@x.com"; "a@x.com"].
Proof.
  split; [apply folding_read_only |]. do 6 eexists.
  split; [reflexivity |]. split; [reflexivity |].
  repeat split. by vm_compute.
Qed.

Lemma C2_scenario :
  run serve (resourceUserUpdate client pending_renamed) invited =
    (pending_renamed,
     [Errorf "cannot update user while invitation is still pending; please wait for the user to accept the invitation"],
     invited, []).
Proof.
  apply (C2_update_pending_rejected serve client pending_renamed invited);
    reflexivity.
Defined.

Lemma C3_scenario :
  exclusive (run serve (resourceUser Read client pending) accepted_stale).1.1.1.
Proof.
  apply (proj1 (C3_identities_exclusive serve Read client pending accepted_stale)).
  right. reflexivity.
Defined.


Lemma C5_scenario :
  exists d' diags,
    run serve (resourceUserRead client active) accepted
      = (d', diags, accepted,
         [refreshing active; Called (conn_GetUser "u-1")])
    /\ diags = [] /\ Id d' = "u-1"
    /\ d_Get "user_id" d' = "u-1" /\ d_Get "invitation_id" d' = ""
    /\ d_Get "login" d' = "a@x.com" /\ d_Get "name" d' = "Alice"
    /\ d_Get "role" d' = "engineer".
Proof.
  destruct (C5_read_active serve client active accepted (Ok alice) accepted)
    as (d' & diags & Hrun & Hrest); [done | reflexivity |].
  exists d', diags. split; [exact Hrun | exact Hrest].
Defined.

(** The user is already gone upstream. *)
Lemma C7_scenario :
  exists diags,
    run serve (resourceUserDelete client active) nobody
      = (active, diags, nobody, [Called (conn_DeleteUser "u-1")])
    /\ diags = [].
Proof.
  destruct (C7_delete_active serve client active nobody
              (Some (HTTPError 404)) nobody)
    as (diags & Hrun & _ & _ & H404 & _); [done | reflexivity |].
  exists diags. split; [exact Hrun | by apply H404].
Defined.


Lemma C9_scenario :
  exists d1 w1 t1 d2 t2,
    run serve (resourceUserCreate client planned) nobody = (d1, [], w1, t1)
    /\ run serve (resourceUserCreate client planned) w1 = (d2, [], w1, t2)
    /\ Id d1 = "inv-1" /\ Id d2 = "inv-1"
    /\ existsb is_post t1 = true /\ existsb is_post t2 = false.
Proof.
  edestruct (C9_create_twice serve client planned nobody)
    as (d2 & t2 & Hrun2 & HI & _ & _ & Hno);
    [apply serve_read_only | apply serve_lists_created | reflexivity |].
  do 5 eexists. split; [reflexivity |]. split; [exact Hrun2 |].
  repeat split; [exact HI | exact Hno].
Defined.

Lemma C10_scenario :
  exists d' diags,
    run serve (resourceUserRead client imported) accepted
      = (d', diags, accepted,
         [refreshing imported; Called (conn_GetUser "u-1")])
    /\ diags = [] /\ Id d' = "u-1"
    /\ d_Get "user_id" d' = "u-1" /\ d_Get "invitation_id" d' = ""
    /\ d_Get "login" d' = "a@x.com" /\ d_Get "name" d' = "Alice"
    /\ d_Get "role" d' = "engineer".
Proof.
  destruct (C10_read_import serve client imported accepted (Ok alice) accepted)
    as (d' & diags & Hrun & Hrest); [reflexivity | reflexivity | reflexivity |].
  exists d', diags. split; [exact Hrun | exact Hrest].
Defined.

(** C6: the invitation endpoint answers 500 while the bag holds an
    invitation id and nobody has the login.  Confirming the invitation
    fails with the listing's error, which is no not-found; the read
    nevertheless clears the resource id and reports no error. *)
Theorem C6_read_pending_listing_fails :
  (run serve (findUserByLogin "a@x.com") invited_down).1.1 = Ok None
  /\ (run serve (getInvitation client "inv-7") invited_down).1.1
     = Err (Errorf "failed to list invitations: 500 Internal Server Error - unavailable")
  /\ IsNotFound
       (Errorf "failed to list invitations: 500 Internal Server Error - unavailable")
     = false
  /\ exists t,
       run serve (resourceUserRead client pending) invited_down
       = (SetId "" pending, [], invited_down, t).
Proof.
  repeat split. eexists. reflexivity.
Qed.

End Scenarios.

(** ** Scenarios of the further properties *)

Module MoreScenarios.

Import Account AccountFacts.

Lemma findUserByLogin_scenario :
  exists found,
    run serve (findUserByLogin "a@x.com") accepted =
      (Ok found, accepted,
       [Called conn_GetCurrentUser; Called (conn_ListCustomerUsers "cust-1")])
    /\ found = Some alice.
Proof.
  destruct (findUserByLogin_first_match serve "a@x.com" accepted admin accepted
              [admin; alice] accepted eq_refl eq_refl)
    as (found & Hrun & Hfound).
  exists found. split; [exact Hrun |].
  rewrite (run_findUserByLogin serve) in Hrun. by injection Hrun as <-.
Defined.

Lemma findInvitationByEmail_scenario :
  exists found t,
    run serve (findInvitationByEmail client "a@x.com") invited = (Ok found, invited, t)
    /\ (ID <$> found) = Some "inv-7".
Proof.
  edestruct (findInvitationByEmail_first_match serve client "a@x.com" invited)
    as (found & Hrun & Hfound); [reflexivity |].
  exists found. eexists. split; [exact Hrun |].
  by injection Hrun as <-.
Defined.

Lemma getInvitation_scenario :
  exists r t,
    run serve (getInvitation client "inv-9") invited = (r, invited, t)
    /\ r = Err (Errorf "invitation not found: inv-9").
Proof.
  edestruct (getInvitation_from_listing serve client "inv-9" invited)
    as (r & Hrun & Hr); [reflexivity |].
  exists r. eexists. split; [exact Hrun |].
  by injection Hrun as <-.
Defined.

Lemma deleteInvitation_scenario :
  exists req answer,
    serve (HTTPClient_Do req) invited = (answer, invited)
    /\ Method req = "DELETE"
    /\ URL req = "https://api.fastly.com/invitations/inv-9".
Proof.
  destruct (deleteInvitation_status serve client "inv-9" invited None invited
              [Called (HTTPClient_Do (request "DELETE" "/invitations/inv-9" None))])
    as (req & answer & _ & Hm & Hurl & _ & Hh & _); [reflexivity | reflexivity |].
  exists req, answer. split; [exact Hh |]. split; [exact Hm | exact Hurl].
Defined.

Lemma listInvitations_scenario :
  exists resp,
    serve (HTTPClient_Do (request "GET" "/invitations" None)) invited = (Ok resp, invited)
    /\ HTTPStatusCode resp = 200%Z.
Proof.
  edestruct (listInvitations_status serve client invited)
    as (req & resp & Ht & _ & _ & _ & Hh & Hs & _); [reflexivity |].
  injection Ht as <-. exists resp. split; [exact Hh | exact Hs].
Defined.

Lemma createInvitation_scenario :
  exists resp w1,
    serve (HTTPClient_Do
             (request "POST" "/invitations"
                (Some (BRequest
                   {| rq_Data :=
                        {| id_Type := "invitation";
                           id_Attributes :=
                             {| ia_Email := "a@x.com"; ia_LimitServices := false;
                                ia_Role := "engineer"; ia_Roles := [] |};
                           id_Relationships :=
                             {| Customer :=
                                  {| cr_Data :=
                                       {| cd_ID := "cust-1"; cd_Type := "customer" |} |} |}
                        |} |})))) nobody
    = (Ok resp, w1)
    /\ (HTTPStatusCode resp = 200 \/ HTTPStatusCode resp = 201)%Z.
Proof.
  edestruct (createInvitation_status serve client "a@x.com" "engineer" "cust-1" nobody)
    as (b & req & resp & Hb & Ht & _ & _ & _ & Hh & Hs & _); [reflexivity |].
  injection Ht as <-. exists resp. eexists. split; [exact Hh | exact Hs].
Defined.

Lemma requests_scenario :
  Header (request "DELETE" "/invitations/inv-7" None) !! "Fastly-Key" = Some "key"
  /\ Header (request "DELETE" "/invitations/inv-7" None) !! "Accept"
     = Some "application/vnd.api+json"
  /\ Header (request "DELETE" "/invitations/inv-7" None) !! "Content-Type"
     = Some "application/vnd.api+json"
  /\ exists path, URL (request "DELETE" "/invitations/inv-7" None) = base +:+ path.
Proof.
  apply (handler_requests_well_formed serve Delete client pending invited
           (request "DELETE" "/invitations/inv-7" None)).
  apply list_elem_of_here.
Defined.

Lemma update_active_scenario :
  exists out w2 t,
    run serve (resourceUserUpdate client active_renamed) accepted
    = (out, w2, Called (conn_UpdateUser "u-1" (Some "Alicia") (Some "engineer")) :: t)
    /\ d_Get "name" out.1 = "Alicia" /\ out.2 = [].
Proof.
  pose proof (update_active_changed serve client active_renamed accepted
                (Ok (rename (Some "Alicia") (Some "engineer") alice))
                (serve (conn_UpdateUser "u-1" (Some "Alicia") (Some "engineer"))
                       accepted).2
                ltac:(done) eq_refl eq_refl) as Hrun.
  cbv beta iota in Hrun.
  do 3 eexists. split; [exact Hrun | split; reflexivity].
Defined.

Lemma update_unchanged_scenario :
  run serve (resourceUserUpdate client pending) invited = (pending, [], invited, []).
Proof.
  apply (update_unchanged serve client pending invited); reflexivity.
Defined.

Lemma delete_scenario :
  (run serve (resourceUserDelete client both_set) accepted_stale).2
  = [Called (conn_DeleteUser "u-1")].
Proof.
  apply (delete_bag_and_calls serve client both_set accepted_stale). by vm_compute.
Defined.

Lemma read_pending_scenario :
  exists d' rest,
    run serve (resourceUserRead client pending) invited
    = (d', [], invited,
       refreshing pending
       :: [Called conn_GetCurrentUser; Called (conn_ListCustomerUsers "cust-1")]
       ++ [Called (HTTPClient_Do (request "GET" "/invitations" None))] ++ rest)
    /\ d' = pending.
Proof.
  apply (read_pending_invitation serve client pending invited invited
           [Called conn_GetCurrentUser; Called (conn_ListCustomerUsers "cust-1")]
           (Ok (toInvitation (invitation "inv-7" "a@x.com" "engineer"))) invited
           [Called (HTTPClient_Do (request "GET" "/invitations" None))]);
    [reflexivity | done | reflexivity | reflexivity].
Defined.

Lemma create_failure_scenario :
  run serve (resourceUserCreate client planned) signed_out
  = (planned, [Wrap "error checking for existing user: " (HTTPError 401)],
     signed_out, [Called conn_GetCurrentUser]).
Proof.
  apply (create_failures serve client planned signed_out). reflexivity.
Defined.

Lemma tracks_scenario :
  tracks (run serve (resourceUser Read client pending) accepted).1.1.1.
Proof.
  pose proof (resource_id_tracks_identity serve Read client pending accepted) as H.
  destruct (run serve (resourceUser Read client pending) accepted)
    as [[[d' diags] w'] t].
  apply (proj1 H). right. right. split; reflexivity.
Defined.

Lemma delete_after_create_scenario :
  exists d1 w1 t1,
    run serve (resourceUserCreate client planned) nobody = (d1, [], w1, t1)
    /\ exists rest,
         (run serve (resourceUserDelete client d1) w1).2
         = (run serve (deleteInvitation client "inv-1") w1).2 ++ rest.
Proof.
  do 3 eexists. split; [reflexivity |].
  edestruct (delete_after_create serve client planned nobody) as [[H _] | [_ H]];
    [reflexivity | done | discriminate H | exact H].
Defined.

Lemma users_data_source_scenario :
  exists (d' : ResourceData (list (gmap string scalar))) rows row,
    run serve (dataSourceFastlyUsersRead listing) accepted
    = (d', [], accepted,
       [Called conn_GetCurrentUser; Called (conn_ListCustomerUsers "cust-1")])
    /\ Id d' = "cust-1" /\ attrs d' !! "users" = Some rows /\ length rows = 2%nat
    /\ rows !! 1%nat = Some row
    /\ row !! "login" = Some (SString "a@x.com")
    /\ row !! "created_at" = Some (SString "").
Proof.
  pose proof (users_data_source serve listing accepted (Ok admin) accepted eq_refl
                (Ok [admin; alice]) accepted eq_refl)
    as (d' & rows & Hrun & HI & Hrows & Hlen & Hall).
  destruct (Hall 1%nat alice eq_refl)
    as (row & Hrow & _ & _ & Hlogin & _ & _ & _ & _ & _ & _ & Hcreated & _).
  exists d', rows, row. split; [exact Hrun |]. split; [exact HI |].
  split; [exact Hrows |]. split; [exact Hlen |]. split; [exact Hrow |].
  split; [exact Hlogin | exact Hcreated].
Defined.

Lemma invitations_data_source_scenario :
  exists d' rows t,
    run serve (dataSourceFastlyInvitationsRead client listing) invited
    = (d', [], invited, Called conn_GetCurrentUser :: t)
    /\ Id d' = "cust-1" /\ attrs d' !! "invitations" = Some rows
    /\ length rows = 1%nat.
Proof.
  pose proof (invitations_data_source serve client listing invited (Ok admin) invited
                eq_refl) as H. cbv beta iota in H.
  edestruct (H (Ok {| ls_Data := invitations invited |}) invited)
    as (d' & rows & Hrun & HI & Hrows & Hlen & _); [reflexivity |].
  exists d', rows. eexists. split; [exact Hrun |]. split; [exact HI |].
  split; [exact Hrows | exact Hlen].
Defined.

End MoreScenarios.
